(* ===== verification/_CoqProject ===== *)
-Q . S2P
Prelude.v
Schema.v
Substitution.v
Timetable.v
Attendance.v
Teachers.v
Catalog.v
Views.v
App.v
