(* ===== verification/Prelude.v ===== *)
(** * A verification development of the Dynamic Timetable Adjustment System

    The program (src/app.py, src/functions.py) is a Streamlit application
    over a MySQL store.  [app.py] routes a sidebar menu choice to one of
    seven handlers of [functions.py]; each handler reads the store, renders
    widgets, and on a button or form submission writes the store and asks
    Streamlit to rerun the script.  The handlers share no state but the
    store (and one [st.session_state] flag).  The core is
    [find_substitutions]: for today's absent teachers it lists the periods
    the chosen teacher misses and, per period, the teachers who are free.

    ** Files, in dependency order (the order of _CoqProject)

    - [Prelude] (this file): the Python error monad ([py_result], notation
      [x <- m ;; k] in [py_scope]), Python's [str.split(sep)[0]] and
      [int(str)], Python dicts built by comprehension (first insertion fixes
      the key position, the last write fixes the value), SQL [DISTINCT] and
      [ORDER BY] on lists, the Streamlit [selectbox], and their lemmas, with
      the hint database [timetable].
    - [Schema]: the tables of the store as Records (teachers, classes,
      subjects, teacher_subject_class, class_timetable, teacher_attendence),
      the store as a Record of lists of rows with its AUTO_INCREMENT
      counters, the label format ["id - name"] used by every selectbox, the
      calendar ([DAYNAME]) and the joins the queries share.
    - [Substitution]: [find_substitutions] (functions.py 291-367): the
      absentee query, the missed-period query, the free-teacher query, and
      the pipeline with its result variants; the abstract eligibility set of
      the specification and the refinement theorem that the query computes
      it; ordering, exclusion and completeness of the suggestions.

    - [Timetable]: [manage_class_timetable] (functions.py 98-168): the
      listing query, the delete button, the select-then-UPDATE-or-INSERT of
      a (class, day, period) slot, and the [int()] parse of the class id
      ([ValueError] for an id such as C101).
    - [Attendance]: [mark_teacher_attendance] (functions.py 171-222):
      today's records read into a dict, the radios, and the loop that
      updates or inserts one row per teacher.
    - [Teachers]: [manage_teachers] (functions.py 6-95): the name-to-id
      dict and the selection, add teacher with the session flag
      [teacher_added], assign under the unique key
      [unique_subject_class], delete one assignment, delete a teacher with
      its assignments.
    - [Catalog]: [manage_classes] and [manage_subjects] (functions.py
      370-438), one handler written against the typeclass [Catalog] (a
      table with id and name columns, laws [CatalogLaws]) with an instance
      per table.
    - [Views]: [view_timetables] (functions.py 225-288): the teacher and
      class views, ordered by [FIELD(day, ...)] and period.
    - [App]: app.py's menu as one run [app_run] over the store and the
      session flag; runs in sequence as the step relation [app_step], and
      [reachable] states from the empty store.

    ** What the theorems show (claims C1-C28, in order of importance)

    - C1-C7 ([Substitution]): the suggestions refine the specification's
      eligibility set (C1); the missed periods are sorted and exact (C2);
      the all-present early return happens exactly when no teacher is
      marked absent (C3); the no-scheduled-periods return reports an
      absentee none of whose slots of the day joins its class and subject
      rows (C4); a pick among the options always gives a result (C5); a
      namesake absentee is unreachable (C6, a bug); the absentee query is
      duplicate-free and exact (C7).
    - C8-C12 ([Timetable]): the code's select-then-UPDATE-or-INSERT keeps
      one row per (class, day, period) (C8); saving sets exactly one slot
      (C9); a non-integer class id raises (C10, a bug); for a decimal class
      id the page edits the class's own slots, through the round trip
      [int(str(z)) = z] (C11); the listing (C12).
    - C13 ([Schema]): labels give back their ids.
    - C14-C16 ([Attendance]): save marks every teacher (C14), keeps one row
      per (teacher, date) (C15); a mark is seen by the engine exactly when
      the two clocks agree (C16).
    - C17-C21 ([Teachers]): deleting a teacher (C17); namesakes and a
      teacher named "-- Add New --" cannot be edited (C18, C19); assign and
      its unique-key warning (C20); an assignment's delete button removes
      exactly that row (C21).
    - C22-C24 ([Catalog]): add (C22); a delete button removes exactly its
      row (C23); deleting a class orphans its slots (C24).
    - C25, C26 ([Views]): the missed periods are the teacher view of the
      day (C25); class namesakes (C26).
    - C27, C28 ([App]): every reachable state satisfies every table's
      invariant, proved by induction on the runs from the per-handler
      preservation lemmas and frame lemmas saying which tables each handler
      writes (C27); the "Teacher added" message appears on the run after
      the insert, once (C28).

    The invariants of the tables whose uniqueness the database itself
    enforces (AUTO_INCREMENT ids, primary keys, the unique key of
    teacher_subject_class) are proved per handler only as lemmas feeding
    C27, since they hold whatever the handler does; the slot and
    attendance uniqueness, which the code maintains, are claims (C8, C15).

    Every claim with a hypothesis has a witness that applies it to a small
    concrete store (the stores of the specification's scenarios and demo
    stores per file), evaluated by [reflexivity] or [vm_compute].

    ** Bounds and fuel

    The only fuel is [nat_digits] (the decimal digits of [str(z)]), run
    with fuel [S n] for the number [n]: each step divides [n] by 10, so
    any fuel above [n] is never exhausted ([nat_digits_spec] assumes
    exactly [n < fuel]).  Every
    other definition is structural recursion over the tables.  Integers
    are unbounded ([nat], [Z]): MySQL's INT columns and AUTO_INCREMENT
    counters would overflow only after 2^31 rows, which no theorem
    depends on.

    ** Modelling choices

    - A table is a list of rows in storage order; a query is a list
      comprehension over its tables in the order of its FROM/JOIN clauses.
      SQL leaves the order of unordered results open; every theorem about a
      query result is stated up to that freedom (membership, [NoDup],
      [Permutation], sortedness by the ORDER BY key), never on one order.
      A Python dict is an association list in insertion order.
    - Ids of teachers and timetable rows are AUTO_INCREMENT integers, as
      [nat]; class and subject ids are the strings typed into the forms.
      Dates are day numbers from 1970-01-01 (a Thursday); [DAYNAME] and
      Python's [strftime('%A')] agree on them.  Python's [date.today()] and
      MySQL's [CURDATE()] are separate inputs, since they can differ.
    - A widget is an input of the handler: a selectbox is the index the
      user picks, a button is whether it was clicked.  A Python exception
      that escapes a handler is the [Raise] value of [py_result].
    - The schema (db.py) is not in the sources.  Only the constraints the
      code relies on are modelled, from the specification: primary keys of
      teachers, classes, subjects, and the unique (subject_id, class_id)
      key of teacher_subject_class.  No foreign keys: the engine must
      tolerate any rows (specification section 7).

    ** Not modelled

    - Streamlit rendering (titles, columns, messages as text) and db.py's
      connection, commit and close: pure I/O.  A message is the feedback
      value of a run; a commit is the new store.
    - IntegrityErrors other than the unique key and the duplicate ids
      (foreign keys of db.py, unknown), and MySQL's collations (string
      comparison is binary).
*)

From stdpp Require Export base list sets strings sorting.
From Stdlib Require Export Ascii.

Declare Scope py_scope.
Delimit Scope py_scope with py.
Open Scope py_scope.

Create HintDb timetable.
Create Rewrite HintDb timetable_rw.

(** ** Python exceptions and the error monad *)

(** The exceptions a handler of functions.py can raise and not catch. *)
Inductive py_error :=
  | ValueError       (** [int()] of a string that is not a decimal integer *)
  | AttributeError   (** [None.split(...)] on an empty selectbox *)
  | StopIteration    (** [next(...)] of an empty generator *)
  | KeyError.        (** a dict lookup of a missing key *)

#[export] Instance py_error_eq_dec : EqDecision py_error.
Proof. solve_decision. Defined.

Inductive py_result (A : Type) : Type :=
  | Ok (a : A)
  | Raise (e : py_error).
Arguments Ok {A} a.
Arguments Raise {A} e.

Definition py_bind {A B} (m : py_result A) (k : A -> py_result B) : py_result B :=
  match m with
  | Ok a => k a
  | Raise e => Raise e
  end.

Notation "x <- m ;; k" := (py_bind m (fun x => k))
  (at level 100, m at next level, right associativity) : py_scope.

(** An [option] that Python would dereference: [None] raises [e]. *)
Definition py_some {A} (e : py_error) (o : option A) : py_result A :=
  match o with
  | Some a => Ok a
  | None => Raise e
  end.

Lemma py_bind_Ok {A B} (m : py_result A) (k : A -> py_result B) b :
  py_bind m k = Ok b <-> exists a, m = Ok a /\ k a = Ok b.
Proof. destruct m; naive_solver. Qed.

Lemma py_some_Ok {A} e (o : option A) a : py_some e o = Ok a <-> o = Some a.
Proof. destruct o; naive_solver. Qed.

#[export] Hint Rewrite @py_bind_Ok @py_some_Ok : timetable_rw.

(** ** Lists as SQL results *)

(** Nested comprehensions [[f y for y in l]] and [[z for y in l for z in g y]]. *)
Lemma elem_of_map {A B} (f : A -> B) (l : list A) x :
  x ∈ map f l <-> exists y, x = f y /\ y ∈ l.
Proof.
  rewrite list_elem_of_In, in_map_iff.
  setoid_rewrite list_elem_of_In. naive_solver.
Qed.

Lemma elem_of_flat_map {A B} (g : A -> list B) (l : list A) x :
  x ∈ flat_map g l <-> exists y, y ∈ l /\ x ∈ g y.
Proof.
  rewrite list_elem_of_In, in_flat_map.
  setoid_rewrite list_elem_of_In. naive_solver.
Qed.

#[export] Hint Rewrite @elem_of_map @elem_of_flat_map @list_elem_of_filter : timetable_rw.

(** Unfold the membership of a query result into its rows and conditions. *)
Ltac query_simpl :=
  repeat first [ setoid_rewrite elem_of_flat_map
               | setoid_rewrite list_elem_of_filter
               | setoid_rewrite elem_of_map ].

(** [SELECT DISTINCT]: the first occurrence of each row is kept. *)
Fixpoint distinct_from `{EqDecision A} (seen : list A) (l : list A) : list A :=
  match l with
  | [] => []
  | x :: l' =>
      if decide (x ∈ seen) then distinct_from seen l'
      else x :: distinct_from (x :: seen) l'
  end.

Definition distinct `{EqDecision A} (l : list A) : list A := distinct_from [] l.

(** [ORDER BY key]: a sort on a [nat] key (merge sort, so ties keep their
    relative order; SQL does not promise that, and no theorem uses it). *)
Definition key_le {A} (key : A -> nat) : relation A := fun x y => key x <= key y.

#[export] Instance key_le_dec {A} (key : A -> nat) : RelDecision (key_le key).
Proof. intros x y. unfold key_le. apply _. Defined.

Definition order_by {A} (key : A -> nat) (l : list A) : list A :=
  merge_sort (key_le key) l.

(** [ORDER BY name] on a string column, with binary collation. *)
Definition key_str_le {A} (key : A -> string) : relation A :=
  fun x y => String.leb (key x) (key y) = true.

#[export] Instance key_str_le_dec {A} (key : A -> string) : RelDecision (key_str_le key).
Proof. intros x y. unfold key_str_le. apply _. Defined.

Definition order_by_name {A} (key : A -> string) (l : list A) : list A :=
  merge_sort (key_str_le key) l.

(** [ORDER BY key1, key2]: lexicographic on two [nat] keys. *)
Definition key_lex_le {A} (key1 key2 : A -> nat) : relation A :=
  fun x y => key1 x < key1 y \/ (key1 x = key1 y /\ key2 x <= key2 y).

#[export] Instance key_lex_le_dec {A} (key1 key2 : A -> nat) : RelDecision (key_lex_le key1 key2).
Proof. intros x y. unfold key_lex_le. apply _. Defined.

Definition order_by_lex {A} (key1 key2 : A -> nat) (l : list A) : list A :=
  merge_sort (key_lex_le key1 key2) l.

(** The rows of a result are sorted on [key]. *)
Definition sorted_on {A} (key : A -> nat) (l : list A) : Prop :=
  Sorted (key_le key) l.

(** [st.selectbox(label, opts)] returns the option the user picked; for an
    empty option list it returns [None]. *)
Definition selectbox {A} (opts : list A) (i : nat) : option A := opts !! i.

Lemma selectbox_map {A B} (f : A -> B) (l : list A) i :
  selectbox (map f l) i = f <$> l !! i.
Proof. unfold selectbox. revert i. induction l; intros [|i]; simpl; auto. Qed.

(** Two rows of a table whose key column has no duplicates are equal when
    their keys are. *)
Lemma NoDup_map_inj_in {A B} (f : A -> B) (l : list A) x y :
  NoDup (map f l) -> x ∈ l -> y ∈ l -> f x = f y -> x = y.
Proof.
  induction l as [|z l IH]; simpl; intros Hnd Hx Hy Hf.
  - by apply elem_of_nil in Hx.
  - apply NoDup_cons in Hnd as [Hz Hnd]. apply elem_of_cons in Hx, Hy.
    destruct Hx as [->|Hx], Hy as [->|Hy]; auto;
      exfalso; apply Hz; apply elem_of_map; eauto.
Qed.

Lemma filter_nil_iff {A} (P : A -> Prop) `{!forall x, Decision (P x)} (l : list A) :
  filter P l = [] <-> forall x, x ∈ l -> ~ P x.
Proof.
  induction l as [|y l IH]; simpl.
  - split; [|done]. intros _ x Hx. by apply elem_of_nil in Hx.
  - rewrite filter_cons. setoid_rewrite elem_of_cons. case_decide.
    + split; [done|]. intros Hall. exfalso. by apply (Hall y); [left|].
    + rewrite IH. naive_solver.
Qed.

(** Selecting the rows with the key of a row, in a table whose keys are
    unique, gives that row alone. *)
Lemma filter_key_unique {A K} `{EqDecision K} (f : A -> K) (l : list A) x :
  NoDup (map f l) -> x ∈ l -> filter (fun y => f y = f x) l = [x].
Proof.
  induction l as [|y l IH]; simpl; intros Hnd Hx; [by apply elem_of_nil in Hx|].
  apply NoDup_cons in Hnd as [Hy Hnd]. rewrite filter_cons.
  apply elem_of_cons in Hx as [->|Hx].
  - rewrite decide_True by done. f_equal.
    apply filter_nil_iff. intros z Hz Hfz.
    apply Hy, elem_of_map. eauto.
  - rewrite decide_False; [by apply IH|].
    intros Hfy. apply Hy, elem_of_map. eauto.
Qed.

(** In a table whose keys are unique, deleting the rows with the key of
    the row at position [i] deletes exactly position [i]. *)
Lemma filter_key_delete {A K} `{EqDecision K} (f : A -> K) (l : list A) i x :
  NoDup (map f l) -> l !! i = Some x -> filter (fun y => f y <> f x) l = delete i l.
Proof.
  revert i. induction l as [|y l IH]; intros [|i] Hnd Hi; try done; simpl in Hi, Hnd;
    apply NoDup_cons in Hnd as [Hy Hnd].
  - injection Hi as ->. rewrite filter_cons, decide_False by auto. simpl.
    clear IH. revert Hy Hnd. induction l as [|z l IHl]; intros Hy Hnd; [done|].
    simpl in Hy, Hnd. apply NoDup_cons in Hnd as [_ Hnd].
    rewrite filter_cons, decide_True; [f_equal; apply IHl; [set_solver|done]|].
    intros Hz. apply Hy. rewrite Hz. left.
  - rewrite filter_cons, decide_True; [simpl; f_equal; by apply IH|].
    intros Hyx. apply Hy. rewrite Hyx. apply elem_of_map. exists x.
    split; [done|]. by eapply list_elem_of_lookup_2.
Qed.

Lemma NoDup_map_filter {A B} (f : A -> B) (P : A -> Prop) `{!forall x, Decision (P x)}
    (l : list A) :
  NoDup (map f l) -> NoDup (map f (filter P l)).
Proof.
  induction l as [|y l IH]; simpl; [done|]. intros [Hy Hnd]%NoDup_cons.
  rewrite filter_cons. case_decide; simpl; [|by apply IH].
  constructor; [|by apply IH].
  intros (z & Hz & (_ & Hzl)%list_elem_of_filter)%elem_of_map.
  apply Hy, elem_of_map. eauto.
Qed.

(** A key column has no duplicates when every key selects at most one row. *)
Lemma NoDup_map_filter_length {A K} `{EqDecision K} (f : A -> K) (l : list A) :
  NoDup (map f l) <-> forall k, length (filter (fun x => f x = k) l) <= 1.
Proof.
  induction l as [|x l IH]; simpl.
  - split; [intros _ k; simpl; lia|constructor].
  - rewrite NoDup_cons, IH. split.
    + intros [Hx Hl] k. rewrite filter_cons. case_decide as Hk; simpl; [|apply Hl].
      subst k. rewrite (proj2 (filter_nil_iff _ _)); [simpl; lia|].
      intros y Hy Hfy. apply Hx, elem_of_map. eauto.
    + intros Hall. split.
      * intros (y & Hfy & Hy)%elem_of_map. specialize (Hall (f x)).
        rewrite filter_cons, decide_True in Hall by done. simpl in Hall.
        assert (y ∈ filter (fun z => f z = f x) l) as Hin
          by (apply list_elem_of_filter; auto).
        destruct (filter _ l); [by apply elem_of_nil in Hin|simpl in Hall; lia].
      * intros k. specialize (Hall k). rewrite filter_cons in Hall.
        case_decide; simpl in Hall; lia.
Qed.

(** A map that keeps the key commutes with a selection on the key. *)
Lemma filter_map_key {A K} `{EqDecision K} (f : A -> K) (g : A -> A) (l : list A) k :
  (forall x, f (g x) = f x) ->
  filter (fun y => f y = k) (map g l) = map g (filter (fun y => f y = k) l).
Proof.
  intros Hg. induction l as [|y l IH]; simpl; [done|].
  rewrite !filter_cons, Hg. case_decide; simpl; by rewrite IH.
Qed.

Lemma lookup_map_Some {A B} (f : A -> B) (l : list A) i y :
  map f l !! i = Some y <-> exists x, l !! i = Some x /\ y = f x.
Proof.
  revert i. induction l as [|x l IH]; intros [|i]; simpl; try naive_solver.
Qed.

Lemma last_map {A B} (f : A -> B) (l : list A) : last (map f l) = f <$> last l.
Proof.
  induction l as [|x l IH]; [done|]. simpl map. rewrite !last_cons, IH.
  by destruct (last l).
Qed.

(** Appending a row whose key is new keeps a key column duplicate-free. *)
Lemma NoDup_map_snoc {A B} (f : A -> B) (l : list A) x :
  NoDup (map f l) -> f x ∉ map f l -> NoDup (map f (l ++ [x])%list).
Proof.
  intros Hnd Hx. rewrite map_app. simpl. apply NoDup_app.
  repeat split; [done| |by apply NoDup_singleton].
  intros y Hy ->%list_elem_of_singleton. done.
Qed.

Section distinct_lemmas.
Context `{EqDecision A}.
Implicit Types l seen : list A.

Lemma elem_of_distinct_from seen l x :
  x ∈ distinct_from seen l <-> x ∈ l /\ x ∉ seen.
Proof.
  revert seen. induction l as [|y l IH]; intros seen; simpl.
  - rewrite elem_of_nil. naive_solver.
  - destruct (decide (y ∈ seen)); rewrite ?elem_of_cons, IH, ?not_elem_of_cons;
      destruct (decide (x = y)) as [->|]; naive_solver.
Qed.

Lemma NoDup_distinct_from seen l : NoDup (distinct_from seen l).
Proof.
  revert seen. induction l as [|y l IH]; intros seen; simpl.
  - constructor.
  - destruct (decide (y ∈ seen)); [done|]. constructor; [|done].
    rewrite elem_of_distinct_from, not_elem_of_cons. naive_solver.
Qed.

Lemma elem_of_distinct l x : x ∈ distinct l <-> x ∈ l.
Proof. unfold distinct. rewrite elem_of_distinct_from, elem_of_nil. naive_solver. Qed.

Lemma NoDup_distinct l : NoDup (distinct l).
Proof. apply NoDup_distinct_from. Qed.

End distinct_lemmas.

Section order_by_lemmas.
Context {A : Type} (key : A -> nat).

Lemma order_by_sorted l : sorted_on key (order_by key l).
Proof. apply Sorted_merge_sort. intros x y. unfold key_le. lia. Qed.

Lemma order_by_Permutation l : order_by key l ≡ₚ l.
Proof. apply merge_sort_Permutation. Qed.

Lemma elem_of_order_by l x : x ∈ order_by key l <-> x ∈ l.
Proof. by rewrite order_by_Permutation. Qed.

Lemma elem_of_order_by_name (skey : A -> string) l x : x ∈ order_by_name skey l <-> x ∈ l.
Proof. unfold order_by_name. by rewrite merge_sort_Permutation. Qed.

Lemma order_by_lex_sorted (key2 : A -> nat) l :
  Sorted (key_lex_le key key2) (order_by_lex key key2 l).
Proof. apply Sorted_merge_sort. intros x y. unfold key_lex_le. lia. Qed.

Lemma elem_of_order_by_lex (key2 : A -> nat) l x : x ∈ order_by_lex key key2 l <-> x ∈ l.
Proof. unfold order_by_lex. by rewrite merge_sort_Permutation. Qed.
End order_by_lemmas.

#[export] Hint Resolve NoDup_distinct order_by_sorted : timetable.
#[export] Hint Resolve order_by_lex_sorted : timetable.
#[export] Hint Rewrite @elem_of_distinct @elem_of_order_by @elem_of_order_by_lex : timetable_rw.

(** ** [next(x for x in l if P(x))]: the first element that passes *)

Section head_filter.
Context {A : Type} (P : A -> Prop) `{!forall x, Decision (P x)}.

Lemma head_filter_Some (l : list A) h :
  head (filter P l) = Some h ->
  exists k, l !! k = Some h /\ P h /\ forall i x, i < k -> l !! i = Some x -> ~ P x.
Proof.
  induction l as [|y l IH]; simpl; [done|]. rewrite filter_cons. case_decide.
  - intros [= ->]. exists 0. split; [done|]. split; [done|]. intros; lia.
  - intros (k & Hk & HP & Hbefore)%IH. exists (S k). do 2 (split; [done|]).
    intros [|i] x Hi Hx; simpl in Hx; [congruence|]. apply (Hbefore i); [lia|done].
Qed.

Lemma last_filter_Some (l : list A) x :
  last (filter P l) = Some x ->
  exists k, l !! k = Some x /\ P x /\ forall i y, k < i -> l !! i = Some y -> ~ P y.
Proof.
  induction l as [|y l IH]; simpl; [done|]. rewrite filter_cons.
  destruct (last (filter P l)) as [z|] eqn:E.
  - intros Hx. assert (last (filter P l) = Some x) as Hl.
    { case_decide; [rewrite last_cons, E in Hx|]; congruence. }
    destruct IH as (k & Hk & HP & Hafter); [congruence|]. exists (S k). do 2 (split; [done|]).
    intros [|i] w Hi Hw; [lia|]. apply (Hafter i w); [lia|exact Hw].
  - case_decide as Hy; [|rewrite E; intros [=]]. rewrite last_cons, E. intros [= <-].
    exists 0. do 2 (split; [done|]). intros [|i] w Hi Hw; [lia|].
    apply last_None in E. intros Hw'. simpl in Hw.
    eapply filter_nil_not_elem_of; [exact E|exact Hw'|by eapply list_elem_of_lookup_2].
Qed.

End head_filter.

(** ** Python strings *)

Open Scope string_scope.

(** [s.split(sep)[0]]: the text of [s] before the first occurrence of
    [sep], all of [s] when [sep] does not occur. *)
Fixpoint split_head (sep s : string) : string :=
  if String.prefix sep s then ""
  else match s with
       | EmptyString => EmptyString
       | String c s' => String c (split_head sep s')
       end.

(** No occurrence of [sep] starts inside [s], even one that runs past its
    end into a following [sep]. *)
Fixpoint sep_free (sep s : string) : bool :=
  match s with
  | EmptyString => true
  | String _ s' => negb (String.prefix sep (s ++ sep)) && sep_free sep s'
  end.

(** stdpp makes [String.append] opaque to [simpl]; its two equations. *)
Lemma string_app_nil (t : string) : "" ++ t = t.
Proof. reflexivity. Qed.

Lemma string_app_cons c (s t : string) : String c s ++ t = String c (s ++ t).
Proof. reflexivity. Qed.

#[export] Hint Rewrite string_app_nil string_app_cons : timetable_rw.

Lemma string_app_assoc (r s t : string) : r ++ (s ++ t) = (r ++ s) ++ t.
Proof. induction r; [done|]. rewrite !string_app_cons. congruence. Qed.

Lemma length_string_app (s t : string) :
  String.length (s ++ t) = String.length s + String.length t.
Proof. induction s; rewrite ?string_app_nil, ?string_app_cons; simpl; lia. Qed.

Lemma prefix_app_l (p s t : string) :
  String.length p <= String.length s ->
  String.prefix p (s ++ t) = String.prefix p s.
Proof.
  revert s. induction p as [|a p IH]; intros [|b s] Hlen;
    rewrite ?string_app_cons; simpl in *; try (by destruct t); try lia.
  destruct (ascii_dec a b); [|done]. apply IH. lia.
Qed.

Lemma prefix_self_app (p t : string) : String.prefix p (p ++ t) = true.
Proof.
  induction p as [|a p IH]; rewrite ?string_app_cons; simpl; [by destruct t|].
  destruct (ascii_dec a a); [exact IH|congruence].
Qed.

(** Splitting ["id" ++ sep ++ rest] at [sep] gives back ["id"] when no
    occurrence of [sep] starts inside ["id"]. *)
Lemma split_head_unfold (sep s : string) :
  split_head sep s =
  if String.prefix sep s then ""
  else match s with
       | EmptyString => EmptyString
       | String c s' => String c (split_head sep s')
       end.
Proof. by destruct s. Qed.

Lemma split_head_app (sep s rest : string) :
  sep_free sep s = true -> split_head sep (s ++ sep ++ rest) = s.
Proof.
  induction s as [|c s IH]; intros Hfree; rewrite split_head_unfold.
  - by rewrite string_app_nil, prefix_self_app.
  - apply andb_prop in Hfree as [Hnp Hfree].
    apply negb_true_iff in Hnp.
    rewrite string_app_assoc, prefix_app_l, Hnp.
    + by rewrite <- string_app_assoc, string_app_cons, IH.
    + rewrite length_string_app. lia.
Qed.

(** ** Python's [int(s)] on a string, and [str(n)] *)

(** The characters [int()] strips around the number ([str.isspace] on
    ASCII: tab to carriage return, the separators 28 to 31, space). *)
Definition py_space (c : ascii) : bool :=
  let n := nat_of_ascii c in ((9 <=? n) && (n <=? 13) || (28 <=? n) && (n <=? 32))%nat.

Definition digit_val (c : ascii) : option nat :=
  let n := nat_of_ascii c in
  if ((48 <=? n) && (n <=? 57))%nat then Some (n - 48) else None.

Fixpoint drop_while {A} (p : A -> bool) (l : list A) : list A :=
  match l with
  | [] => []
  | x :: l' => if p x then drop_while p l' else l
  end.

(** [s.strip()] *)
Definition py_strip (l : list ascii) : list ascii :=
  rev (drop_while py_space (rev (drop_while py_space l))).

(** Decimal digits, an underscore allowed between two digits; [after_digit]
    says whether the previous character was a digit. *)
Fixpoint digits_acc (acc : nat) (after_digit : bool) (l : list ascii) : option nat :=
  match l with
  | [] => if after_digit then Some acc else None
  | c :: l' =>
      match digit_val c with
      | Some d => digits_acc (acc * 10 + d) true l'
      | None => if Ascii.eqb c "_" && after_digit then digits_acc acc false l' else None
      end
  end.

(** [int(s)]: surrounding white space, an optional sign, decimal digits.
    [None] is the [ValueError].  Only ASCII text is modelled. *)
Definition py_int (s : string) : option Z :=
  match py_strip (String.list_ascii_of_string s) with
  | c :: l =>
      if ascii_dec c "-" then (fun n => Z.opp (Z.of_nat n)) <$> digits_acc 0 false l
      else if ascii_dec c "+" then Z.of_nat <$> digits_acc 0 false l
      else Z.of_nat <$> digits_acc 0 false (c :: l)
  | [] => None
  end.

(** The decimal digits of [n], most significant first, in front of [acc]. *)
Fixpoint nat_digits (fuel n : nat) (acc : list ascii) : list ascii :=
  match fuel with
  | 0 => acc
  | S f =>
      let acc' := ascii_of_nat (48 + n mod 10) :: acc in
      if (n <? 10)%nat then acc' else nat_digits f (n / 10) acc'
  end.

(** [str(z)] of a Python int, which is also how MySQL stores an integer
    parameter in a character column. *)
Definition str_Z (z : Z) : string :=
  String.string_of_list_ascii
    (match z with
     | Z0 => ["0"%char]
     | Zpos p => nat_digits (S (Pos.to_nat p)) (Pos.to_nat p) []
     | Zneg p => "-"%char :: nat_digits (S (Pos.to_nat p)) (Pos.to_nat p) []
     end).

Definition is_digit_char (c : ascii) : Prop := exists d, d < 10 /\ c = ascii_of_nat (48 + d).

Lemma digit_val_digit d : d < 10 -> digit_val (ascii_of_nat (48 + d)) = Some d.
Proof.
  intros Hd. unfold digit_val. rewrite nat_ascii_embedding by lia.
  replace ((48 <=? 48 + d) && (48 + d <=? 57))%nat with true
    by (symmetry; apply andb_true_iff; rewrite !Nat.leb_le; lia).
  f_equal. lia.
Qed.

Lemma digit_char_not_space c : is_digit_char c -> py_space c = false.
Proof.
  intros (d & Hd & ->). unfold py_space. rewrite nat_ascii_embedding by lia.
  apply orb_false_iff. rewrite !andb_false_iff, !Nat.leb_gt. lia.
Qed.

Lemma digits_acc_digit acc p d l :
  d < 10 -> digits_acc acc p (ascii_of_nat (48 + d) :: l) = digits_acc (acc * 10 + d) true l.
Proof. intros Hd. cbn [digits_acc]. by rewrite digit_val_digit. Qed.

Lemma nat_digits_S f n acc :
  nat_digits (S f) n acc =
  if (n <? 10)%nat then ascii_of_nat (48 + n mod 10) :: acc
  else nat_digits f (n / 10) (ascii_of_nat (48 + n mod 10) :: acc).
Proof. reflexivity. Qed.

Lemma nat_digits_spec fuel n acc :
  n < fuel ->
  (exists c l, nat_digits fuel n acc = c :: l /\ is_digit_char c) /\
  (Forall is_digit_char acc -> Forall is_digit_char (nat_digits fuel n acc)) /\
  (forall p, digits_acc 0 p (nat_digits fuel n acc) = digits_acc n true acc).
Proof.
  revert n acc. induction fuel as [|f IH]; intros n acc Hn; [lia|].
  rewrite nat_digits_S.
  assert (n mod 10 < 10) as Hm by (apply Nat.mod_upper_bound; lia).
  assert (is_digit_char (ascii_of_nat (48 + n mod 10))) by (eexists; eauto).
  destruct (Nat.ltb_spec n 10) as [Hlt|Hge].
  - split; [eauto|]. split; [constructor; auto|].
    intros p. rewrite digits_acc_digit by done.
    rewrite Nat.mod_small by done. done.
  - destruct (IH (n / 10) (ascii_of_nat (48 + n mod 10) :: acc)) as (Hhd & Hall & Hval).
    { apply Nat.lt_le_trans with n; [apply Nat.div_lt; lia|lia]. }
    split; [done|]. split; [intros; apply Hall; constructor; auto|].
    intros p. rewrite Hval, digits_acc_digit by done.
    f_equal. pose proof (Nat.div_mod_eq n 10). lia.
Qed.

Lemma py_strip_id (l : list ascii) :
  Forall (fun c => py_space c = false) l -> py_strip l = l.
Proof.
  intros Hall. unfold py_strip.
  assert (forall k : list ascii, Forall (fun c => py_space c = false) k ->
            drop_while py_space k = k) as Hdrop.
  { intros [|c k] Hk; simpl; [done|]. by apply Forall_cons in Hk as [-> _]. }
  rewrite (Hdrop l) by done. rewrite Hdrop; [apply rev_involutive|].
  by apply Forall_rev.
Qed.

(** Python's [int()] reads back the decimal text [str(z)] of every
    integer [z]. *)
Lemma py_int_str_Z z : py_int (str_Z z) = Some z.
Proof.
  destruct z as [|p|p]; [reflexivity| |];
    unfold py_int, str_Z; rewrite String.list_ascii_of_string_of_list_ascii;
    destruct (nat_digits_spec (S (Pos.to_nat p)) (Pos.to_nat p) [] ltac:(lia))
      as ((c & l & Hcl & Hc) & Hall & Hval);
    specialize (Hall ltac:(constructor));
    rewrite py_strip_id by (try constructor; try done;
                            eapply Forall_impl; [exact Hall|apply digit_char_not_space]).
  - rewrite Hcl. destruct Hc as (d & Hd & ->).
    destruct (ascii_dec _ "-") as [Heq|_].
    { apply (f_equal nat_of_ascii) in Heq. rewrite nat_ascii_embedding in Heq by lia.
      change (nat_of_ascii "-") with 45 in Heq. lia. }
    destruct (ascii_dec _ "+") as [Heq|_].
    { apply (f_equal nat_of_ascii) in Heq. rewrite nat_ascii_embedding in Heq by lia.
      change (nat_of_ascii "+") with 43 in Heq. lia. }
    rewrite <- Hcl, Hval. simpl. by rewrite positive_nat_Z.
  - simpl. rewrite Hval. simpl. by rewrite positive_nat_Z.
Qed.

(** ** Python dicts *)

(** A dict as an association list in insertion order.  [d[k] = v] keeps
    the position of an existing key and replaces its value. *)
Fixpoint dict_set `{EqDecision K} {V} (k : K) (v : V) (d : list (K * V)) : list (K * V) :=
  match d with
  | [] => [(k, v)]
  | (k', v') :: d' => if decide (k = k') then (k, v) :: d' else (k', v') :: dict_set k v d'
  end.

(** [{k: v for (k, v) in kvs}] *)
Definition dict_of `{EqDecision K} {V} (kvs : list (K * V)) : list (K * V) :=
  fold_left (fun d kv => dict_set kv.1 kv.2 d) kvs [].

(** [d.get(k)] *)
Fixpoint dict_get `{EqDecision K} {V} (d : list (K * V)) (k : K) : option V :=
  match d with
  | [] => None
  | (k', v) :: d' => if decide (k = k') then Some v else dict_get d' k
  end.

(** [k in d] *)
Definition dict_mem `{EqDecision K} {V} (d : list (K * V)) (k : K) : bool :=
  bool_decide (is_Some (dict_get d k)).

Section dict_lemmas.
Context `{EqDecision K} {V : Type}.
Implicit Types (d : list (K * V)) (kvs : list (K * V)).

Lemma dict_get_set d k v k' :
  dict_get (dict_set k v d) k' = if decide (k' = k) then Some v else dict_get d k'.
Proof.
  induction d as [|[k0 v0] d IH]; simpl.
  - by repeat case_decide.
  - destruct (decide (k = k0)) as [->|Hne]; simpl.
    + by destruct (decide (k' = k0)).
    + rewrite IH. by repeat case_decide; subst.
Qed.

Lemma dict_keys_set d k v :
  k ∈ map fst d -> map fst (dict_set k v d) = map fst d.
Proof.
  induction d as [|[k0 v0] d IH]; simpl; intros Hk; [by apply elem_of_nil in Hk|].
  case_decide as Heq; simpl; [by subst|].
  apply elem_of_cons in Hk as [?|Hk]; [done|]. by rewrite IH.
Qed.

Lemma dict_keys_set_new d k v :
  k ∉ map fst d -> map fst (dict_set k v d) = (map fst d ++ [k])%list.
Proof.
  induction d as [|[k0 v0] d IH]; simpl; intros Hk; [done|].
  rewrite decide_False by set_solver. simpl. f_equal. apply IH. set_solver.
Qed.

Lemma dict_get_Some d k v : dict_get d k = Some v -> (k, v) ∈ d.
Proof.
  induction d as [|[k0 v0] d IH]; simpl; [done|].
  case_decide; [intros [= <-]; subst; left|intros; right; auto].
Qed.

Lemma dict_get_fold kvs d k :
  dict_get (fold_left (fun d kv => dict_set kv.1 kv.2 d) kvs d) k =
  match last (map snd (filter (fun kv => kv.1 = k) kvs)) with
  | Some v => Some v
  | None => dict_get d k
  end.
Proof.
  revert d. induction kvs as [|[k0 v0] kvs IH]; intros d; simpl; [done|].
  rewrite IH, filter_cons. case_decide as Hk; simpl in *.
  - rewrite last_cons. destruct (last (map snd (filter _ kvs))); [done|].
    rewrite dict_get_set, decide_True; auto.
  - destruct (last (map snd (filter _ kvs))); [done|].
    rewrite dict_get_set, decide_False; auto.
Qed.

(** A key whose values in the comprehension all equal [v] maps to [v]. *)
Lemma dict_get_of_const kvs k v :
  (k, v) ∈ kvs -> (forall v', (k, v') ∈ kvs -> v' = v) -> dict_get (dict_of kvs) k = Some v.
Proof.
  intros Hin Hall. unfold dict_of. rewrite dict_get_fold.
  destruct (last (map snd (filter (fun kv => kv.1 = k) kvs))) as [v'|] eqn:E.
  - f_equal. apply Hall. apply last_Some_elem_of, elem_of_map in E as ([k' w] & -> & Hw).
    apply list_elem_of_filter in Hw as [Hk Hw]. simpl in *. by subst.
  - exfalso. apply last_None in E. apply map_eq_nil in E.
    apply (filter_nil_not_elem_of _ _ (k, v) E); auto.
Qed.

Lemma dict_keys_fold kvs d :
  NoDup (map fst d) ->
  NoDup (map fst (fold_left (fun d kv => dict_set kv.1 kv.2 d) kvs d)) /\
  (forall k, k ∈ map fst (fold_left (fun d kv => dict_set kv.1 kv.2 d) kvs d) <->
             k ∈ map fst d \/ k ∈ map fst kvs).
Proof.
  revert d. induction kvs as [|[k0 v0] kvs IH]; intros d Hnd; simpl; [set_solver|].
  destruct (decide (k0 ∈ map fst d)) as [Hin|Hin].
  - destruct (IH (dict_set k0 v0 d)) as [IH1 IH2]; [by rewrite dict_keys_set|].
    split; [done|]. intros k. rewrite IH2, dict_keys_set by done. set_solver.
  - destruct (IH (dict_set k0 v0 d)) as [IH1 IH2].
    { rewrite dict_keys_set_new by done. apply NoDup_app. repeat split; [done| |by apply NoDup_singleton].
      intros x Hx ->%list_elem_of_singleton. done. }
    split; [done|]. intros k. rewrite IH2, dict_keys_set_new by done. set_solver.
Qed.

Lemma dict_of_keys kvs :
  NoDup (map fst (dict_of kvs)) /\ (forall k, k ∈ map fst (dict_of kvs) <-> k ∈ map fst kvs).
Proof.
  destruct (dict_keys_fold kvs [] (NoDup_nil_2)) as [H1 H2]. split; [done|].
  intros k. unfold dict_of. rewrite H2. set_solver.
Qed.

Lemma dict_get_not_key d k : k ∉ map fst d -> dict_get d k = None.
Proof.
  induction d as [|[k0 v0] d IH]; simpl; intros Hk; [done|].
  rewrite decide_False by set_solver. apply IH. set_solver.
Qed.

Lemma dict_mem_true d k : dict_mem d k = true <-> k ∈ map fst d.
Proof.
  unfold dict_mem. rewrite bool_decide_eq_true.
  induction d as [|[k0 v0] d IH]; simpl.
  - split; [by intros []|intros Hk; by apply elem_of_nil in Hk].
  - rewrite elem_of_cons. case_decide; simpl; [split; auto|]. rewrite IH. naive_solver.
Qed.
(** The value of a key in a dict comprehension is the value of the key's
    last pair: no later pair has that key. *)
Lemma dict_of_last kvs k v :
  dict_get (dict_of kvs) k = Some v ->
  exists i, kvs !! i = Some (k, v) /\ forall j kv, i < j -> kvs !! j = Some kv -> kv.1 <> k.
Proof.
  unfold dict_of. rewrite dict_get_fold, last_map.
  destruct (last (filter _ kvs)) as [[k' v']|] eqn:E; simpl; [intros [= ->]|done].
  apply last_filter_Some in E as (i & Hi & Hk & Hafter). simpl in Hk. subst k'.
  exists i. split; [done|]. exact Hafter.
Qed.

End dict_lemmas.
