(* ===== verification/Schema.v ===== *)
(** * Schema: the tables of the MySQL store and the data the queries share

    One Record per table row, with the column names of the SQL in
    src/functions.py; the store is a Record of lists of rows (a table in
    storage order) with the AUTO_INCREMENT counters of the tables whose ids
    MySQL assigns.  Also here: the weekday names of the timetable form and
    MySQL's [DAYNAME], the ["id - name"] labels of the selectboxes, and the
    join of teacher_subject_class with class_timetable that "who teaches
    what, when" is derived from. *)

From S2P Require Import Prelude.

(** ** Rows *)

(** [teachers (t_id INT AUTO_INCREMENT, t_name)] *)
Record teacher := mkTeacher { t_id : nat; t_name : string }.

(** [classes (c_id, c_name)]: the id is typed into the form (e.g. C101). *)
Record class_row := mkClass { c_id : string; c_name : string }.

(** [subjects (s_id, s_name)] *)
Record subject_row := mkSubject { s_id : string; s_name : string }.

(** [teacher_subject_class (id AUTO_INCREMENT, teacher_id, subject_id,
    class_id)], with the unique key [unique_subject_class]. *)
Record tsc_row := mkTsc {
  tsc_id : nat;
  tsc_teacher_id : nat;
  tsc_subject_id : string;
  tsc_class_id : string }.

(** [class_timetable (id AUTO_INCREMENT, class_id, subject_id, day,
    period)] *)
Record ct_row := mkCt {
  ct_id : nat;
  ct_class_id : string;
  ct_subject_id : string;
  ct_day : string;
  ct_period : nat }.

(** The two options of the attendance radio. *)
Inductive status := Present | Absent.

(** [teacher_attendence (teacher_id, date, status)] (the table name is
    spelled as in the source). *)
Record ta_row := mkTa { ta_teacher_id : nat; ta_date : nat; ta_status : status }.

#[export] Instance teacher_eq_dec : EqDecision teacher.
Proof. solve_decision. Defined.
#[export] Instance class_row_eq_dec : EqDecision class_row.
Proof. solve_decision. Defined.
#[export] Instance subject_row_eq_dec : EqDecision subject_row.
Proof. solve_decision. Defined.
#[export] Instance tsc_row_eq_dec : EqDecision tsc_row.
Proof. solve_decision. Defined.
#[export] Instance ct_row_eq_dec : EqDecision ct_row.
Proof. solve_decision. Defined.
#[export] Instance status_eq_dec : EqDecision status.
Proof. solve_decision. Defined.
#[export] Instance ta_row_eq_dec : EqDecision ta_row.
Proof. solve_decision. Defined.

(** ** The store *)

Record store := mkStore {
  teachers : list teacher;
  classes : list class_row;
  subjects : list subject_row;
  teacher_subject_class : list tsc_row;
  class_timetable : list ct_row;
  teacher_attendence : list ta_row;
  next_t_id : nat;     (** AUTO_INCREMENT of teachers *)
  next_tsc_id : nat;   (** AUTO_INCREMENT of teacher_subject_class *)
  next_ct_id : nat }.  (** AUTO_INCREMENT of class_timetable *)

Definition empty_store : store := mkStore [] [] [] [] [] [] 1 1 1.

(** Writes to one table (and its AUTO_INCREMENT counter). *)
Definition set_teachers (db : store) (l : list teacher) (next : nat) : store :=
  mkStore l (classes db) (subjects db) (teacher_subject_class db) (class_timetable db)
          (teacher_attendence db) next (next_tsc_id db) (next_ct_id db).

Definition set_classes (db : store) (l : list class_row) : store :=
  mkStore (teachers db) l (subjects db) (teacher_subject_class db) (class_timetable db)
          (teacher_attendence db) (next_t_id db) (next_tsc_id db) (next_ct_id db).

Definition set_subjects (db : store) (l : list subject_row) : store :=
  mkStore (teachers db) (classes db) l (teacher_subject_class db) (class_timetable db)
          (teacher_attendence db) (next_t_id db) (next_tsc_id db) (next_ct_id db).

Definition set_tsc (db : store) (l : list tsc_row) (next : nat) : store :=
  mkStore (teachers db) (classes db) (subjects db) l (class_timetable db)
          (teacher_attendence db) (next_t_id db) next (next_ct_id db).

Definition set_class_timetable (db : store) (l : list ct_row) (next : nat) : store :=
  mkStore (teachers db) (classes db) (subjects db) (teacher_subject_class db) l
          (teacher_attendence db) (next_t_id db) (next_tsc_id db) next.

Definition set_attendance (db : store) (l : list ta_row) : store :=
  mkStore (teachers db) (classes db) (subjects db) (teacher_subject_class db)
          (class_timetable db) l (next_t_id db) (next_tsc_id db) (next_ct_id db).

(** ** Calendar *)

(** MySQL's [DAYNAME] and Python's [strftime('%A')]. *)
Definition week_days : list string :=
  ["Monday"; "Tuesday"; "Wednesday"; "Thursday"; "Friday"; "Saturday"; "Sunday"].

(** The day options of the timetable form (functions.py line 110). *)
Definition school_days : list string :=
  ["Monday"; "Tuesday"; "Wednesday"; "Thursday"; "Friday"; "Saturday"].

(** A date is a day number counted from 1970-01-01, a Thursday. *)
Definition dayname (date : nat) : string :=
  default "Sunday" (week_days !! ((date + 3) mod 7)).

(** The period options of the timetable form: [range(1, 9)]. *)
Definition period_options : list nat := seq 1 8.

(** ** Labels *)

(** [f"{x['id']} - {x['name']}"], and its inverse [label.split(" - ")[0]]. *)
Definition label_sep : string := " - ".

Definition label (id name : string) : string := id ++ label_sep ++ name.

Definition label_id (lbl : string) : string := split_head label_sep lbl.

(** ** The join "slot taught by assignment" *)

(** [tsc.class_id = ct.class_id AND tsc.subject_id = ct.subject_id] *)
Definition assigned_to (a : tsc_row) (ct : ct_row) : Prop :=
  tsc_class_id a = ct_class_id ct /\ tsc_subject_id a = ct_subject_id ct.

#[export] Instance assigned_to_dec a ct : Decision (assigned_to a ct).
Proof. unfold assigned_to. apply _. Defined.

(** ** Lemmas *)

(** C13 (roundtrip): the id the handlers cut out of a selectbox label,
    [label.split(" - ")[0]], is the id the label was made from, for every id
    in which no " - " starts. *)
Lemma label_id_label id name :
  sep_free label_sep id = true -> label_id (label id name) = id.
Proof. apply split_head_app. Qed.

Lemma label_id_label_witness :
  sep_free label_sep "S101" = true /\ label_id (label "S101" "Maths") = "S101".
Proof. split; [reflexivity|apply label_id_label; reflexivity]. Defined.

(** An id containing " - " is cut at it: the subject "A - 1" is read back
    as "A". *)
Example label_id_truncates : label_id (label "A - 1" "Maths") = "A".
Proof. reflexivity. Qed.

