(* ===== verification/Substitution.v ===== *)
(** * Substitution: [find_substitutions] (src/functions.py, lines 291-367)

    The three queries of the handler, each a list comprehension over the
    tables in the order of its FROM/JOIN clauses: the absentees of the day
    (step 1), the periods the chosen absentee misses (step 2, ORDER BY
    period) and, per missed period, the free teachers (step 3).  The
    pipeline [find_substitutions] threads them as the handler does, with
    its two early returns as result variants and the [next(...)] of the
    teacher choice as a possible [StopIteration].

    The abstract contract of the specification (section 4.3) is
    [eligible]: all teachers minus those teaching at the period, minus the
    absentee, minus those marked absent that day.  The theorems show that
    the query computes exactly that set, that the suggestions are ordered,
    sound and complete, and which result variant each situation yields. *)

From S2P Require Import Prelude Schema.

Module Engine.

(** ** Step 1: absent teachers of the day *)

(** [SELECT DISTINCT t.t_id, t.t_name FROM teacher_attendence ta
     JOIN teachers t ON ta.teacher_id = t.t_id
     WHERE ta.status = 'Absent' AND ta.date = CURDATE()] *)
Definition absentees (db : store) (curdate : nat) : list teacher :=
  distinct
    (flat_map (fun ta => filter (fun t => t_id t = ta_teacher_id ta) (teachers db))
       (filter (fun ta => ta_status ta = Absent /\ ta_date ta = curdate)
          (teacher_attendence db))).

(** [next(t["t_id"] for t in absentees if t["t_name"] == selected_teacher)] *)
Definition first_id_named (abs : list teacher) (selected : option string) : py_result nat :=
  py_some StopIteration (t_id <$> head (filter (fun t => Some (t_name t) = selected) abs)).

(** ** Step 2: the periods the absentee misses *)

(** A row of the missed-classes result:
    [ct.class_id, c.c_name, ct.subject_id, s.s_name, ct.day, ct.period]. *)
Record missed_row := mkMissed {
  m_class_id : string;
  m_c_name : string;
  m_subject_id : string;
  m_s_name : string;
  m_day : string;
  m_period : nat }.

#[export] Instance missed_row_eq_dec : EqDecision missed_row.
Proof. solve_decision. Defined.

(** [FROM class_timetable ct
     JOIN teacher_subject_class tsc ON tsc.class_id = ct.class_id
                                   AND tsc.subject_id = ct.subject_id
     JOIN classes c ON c.c_id = ct.class_id
     JOIN subjects s ON s.s_id = ct.subject_id
     WHERE tsc.teacher_id = %s AND ct.day = DAYNAME(CURDATE())],
    before the ORDER BY. *)
Definition missed_join (db : store) (curdate tid : nat) : list missed_row :=
  flat_map (fun ct =>
    flat_map (fun a =>
      flat_map (fun c =>
        map (fun s => mkMissed (ct_class_id ct) (c_name c) (ct_subject_id ct)
                               (s_name s) (ct_day ct) (ct_period ct))
          (filter (fun s => s_id s = ct_subject_id ct) (subjects db)))
        (filter (fun c => c_id c = ct_class_id ct) (classes db)))
      (filter (fun a => assigned_to a ct /\ tsc_teacher_id a = tid)
         (teacher_subject_class db)))
    (filter (fun ct => ct_day ct = dayname curdate) (class_timetable db)).

(** [... ORDER BY ct.period] *)
Definition missed_classes (db : store) (curdate tid : nat) : list missed_row :=
  order_by m_period (missed_join db curdate tid).

(** ** Step 3: the free teachers of a period *)

(** [SELECT tsc.teacher_id FROM teacher_subject_class tsc
     JOIN class_timetable ct ON tsc.class_id = ct.class_id
                            AND tsc.subject_id = ct.subject_id
     WHERE ct.day = DAYNAME(CURDATE()) AND ct.period = %s] *)
Definition busy_ids (db : store) (day : string) (period : nat) : list nat :=
  flat_map (fun a =>
    map (fun _ => tsc_teacher_id a)
      (filter (fun ct => assigned_to a ct /\ ct_day ct = day /\ ct_period ct = period)
         (class_timetable db)))
    (teacher_subject_class db).

(** [SELECT teacher_id FROM teacher_attendence
     WHERE date = CURDATE() AND status = 'Absent'] *)
Definition absent_ids (db : store) (curdate : nat) : list nat :=
  map ta_teacher_id
    (filter (fun ta => ta_date ta = curdate /\ ta_status ta = Absent)
       (teacher_attendence db)).

(** [SELECT t.t_id, t.t_name FROM teachers t
     WHERE t.t_id NOT IN (busy) AND t.t_id != %s AND t.t_id NOT IN (absent)] *)
Definition free_teachers (db : store) (curdate period sel : nat) : list teacher :=
  filter (fun t => t_id t ∉ busy_ids db (dayname curdate) period /\
                   t_id t <> sel /\
                   t_id t ∉ absent_ids db curdate)
    (teachers db).

(** ** The pipeline *)

(** What the handler renders: the early return of line 304 ("All teachers
    are present today!"), the early return of line 324 ("no scheduled
    periods"), or the missed periods with, per period, the free teachers
    (an empty list is the "No available substitute" warning). *)
Inductive subst_result :=
  | AllPresent
  | NoScheduledPeriods (abs : list teacher) (sel : nat)
  | Suggestions (abs : list teacher) (sel : nat) (missed : list missed_row)
                (subs : list (missed_row * list teacher)).

(** The handler, for the day [curdate] and the index [pick] the user
    chooses in the "Select Absent Teacher" selectbox. *)
Definition find_substitutions (db : store) (curdate pick : nat) : py_result subst_result :=
  let abs := absentees db curdate in
  if decide (abs = []) then Ok AllPresent else
  sel <- first_id_named abs (selectbox (map t_name abs) pick) ;;
  let missed := missed_classes db curdate sel in
  if decide (missed = []) then Ok (NoScheduledPeriods abs sel) else
  Ok (Suggestions abs sel missed
        (map (fun r => (r, free_teachers db curdate (m_period r) sel)) missed)).

(** ** The contract of the specification (section 4.3) *)

(** Teacher [tid] teaches some class at [(day, period)]: an assignment of
    [tid] matches a timetable slot at that day and period. *)
Definition teaching_at (db : store) (day : string) (period tid : nat) : Prop :=
  exists a ct, a ∈ teacher_subject_class db /\ ct ∈ class_timetable db /\
    assigned_to a ct /\ ct_day ct = day /\ ct_period ct = period /\
    tsc_teacher_id a = tid.

(** Teacher [tid] has an Absent record on [date]. *)
Definition absent_on (db : store) (date tid : nat) : Prop :=
  exists ta, ta ∈ teacher_attendence db /\ ta_teacher_id ta = tid /\
    ta_date ta = date /\ ta_status ta = Absent.

(** [eligible(day, period, T)] of the specification. *)
Definition eligible (db : store) (date period absent_t : nat) (t : teacher) : Prop :=
  t ∈ teachers db /\ ~ teaching_at db (dayname date) period (t_id t) /\
  t_id t <> absent_t /\ ~ absent_on db date (t_id t).

(** A missed period of teacher [tid] on [date]: a slot of that weekday
    whose (class, subject) is assigned to [tid], with the names of its
    class and subject. *)
Definition missed_spec (db : store) (date tid : nat) (r : missed_row) : Prop :=
  exists ct a c s,
    ct ∈ class_timetable db /\ a ∈ teacher_subject_class db /\
    c ∈ classes db /\ s ∈ subjects db /\
    assigned_to a ct /\ tsc_teacher_id a = tid /\ ct_day ct = dayname date /\
    c_id c = ct_class_id ct /\ s_id s = ct_subject_id ct /\
    r = mkMissed (ct_class_id ct) (c_name c) (ct_subject_id ct) (s_name s)
                 (ct_day ct) (ct_period ct).

(** ** Stores of the specification's scenarios (section 8)

    Day 4 is Monday 1970-01-05. *)

(** Scenario A: T1 is absent and teaches C1/S1 in period 2; T2 teaches
    C2/S2 in period 2; T3 is free. *)
Definition scenario_A : store :=
  mkStore [mkTeacher 1 "T1"; mkTeacher 2 "T2"; mkTeacher 3 "T3"]
          [mkClass "C1" "One"; mkClass "C2" "Two"]
          [mkSubject "S1" "Maths"; mkSubject "S2" "Art"]
          [mkTsc 1 1 "S1" "C1"; mkTsc 2 2 "S2" "C2"]
          [mkCt 1 "C1" "S1" "Monday" 2; mkCt 2 "C2" "S2" "Monday" 2]
          [mkTa 1 4 Absent] 4 3 3.

(** Scenario C: T1 is absent and has no assignment. *)
Definition scenario_C : store :=
  mkStore [mkTeacher 1 "T1"; mkTeacher 2 "T2"] [mkClass "C1" "One"]
          [mkSubject "S1" "Maths"] [mkTsc 1 2 "S1" "C1"]
          [mkCt 1 "C1" "S1" "Monday" 1] [mkTa 1 4 Absent] 3 2 2.

(** Scenario D: T1 is absent and misses periods 1 and 2; in period 1 T2
    teaches and T3 is absent, in period 2 T2 is free. *)
Definition scenario_D : store :=
  mkStore [mkTeacher 1 "T1"; mkTeacher 2 "T2"; mkTeacher 3 "T3"]
          [mkClass "C1" "One"; mkClass "C2" "Two"]
          [mkSubject "S1" "Maths"; mkSubject "S2" "Art"]
          [mkTsc 1 1 "S1" "C1"; mkTsc 2 1 "S2" "C1"; mkTsc 3 2 "S1" "C2"]
          [mkCt 1 "C1" "S2" "Monday" 2; mkCt 2 "C1" "S1" "Monday" 1;
           mkCt 3 "C2" "S1" "Monday" 1]
          [mkTa 1 4 Absent; mkTa 3 4 Absent] 4 4 4.

(** Two absent teachers named "Asha"; the second one teaches in period 3. *)
Definition scenario_same_name : store :=
  mkStore [mkTeacher 1 "Asha"; mkTeacher 2 "Asha"; mkTeacher 3 "Ravi"]
          [mkClass "C1" "One"] [mkSubject "S1" "Maths"]
          [mkTsc 1 2 "S1" "C1"] [mkCt 1 "C1" "S1" "Monday" 3]
          [mkTa 1 4 Absent; mkTa 2 4 Absent] 4 2 2.

(** Kim is absent; Zoe and Adam are free; the teachers table holds Zoe
    before Adam. *)
Definition scenario_order : store :=
  mkStore [mkTeacher 1 "Zoe"; mkTeacher 2 "Adam"; mkTeacher 3 "Kim"] [] [] [] []
          [mkTa 3 4 Absent] 4 1 1.

(** Class C1 was deleted (manage_classes does not delete its timetable or
    assignment rows); teacher 2 still has an assignment and a slot for it. *)
Definition scenario_orphan : store :=
  mkStore [mkTeacher 1 "T1"; mkTeacher 2 "T2"] [] [mkSubject "S1" "Maths"]
          [mkTsc 1 2 "S1" "C1"] [mkCt 1 "C1" "S1" "Monday" 1]
          [mkTa 2 4 Absent] 3 2 2.

(** ** Membership in the query results *)

Section queries.
Implicit Types (db : store).

Lemma elem_of_busy_ids db day period tid :
  tid ∈ busy_ids db day period <-> teaching_at db day period tid.
Proof. unfold busy_ids, teaching_at. query_simpl. naive_solver. Qed.

Lemma elem_of_absent_ids db date tid :
  tid ∈ absent_ids db date <-> absent_on db date tid.
Proof. unfold absent_ids, absent_on. query_simpl. naive_solver. Qed.

Lemma elem_of_free_teachers db date period sel t :
  t ∈ free_teachers db date period sel <-> eligible db date period sel t.
Proof.
  unfold free_teachers, eligible.
  rewrite list_elem_of_filter, elem_of_busy_ids, elem_of_absent_ids. naive_solver.
Qed.

Lemma elem_of_absentees db date t :
  t ∈ absentees db date <-> t ∈ teachers db /\ absent_on db date (t_id t).
Proof.
  unfold absentees, absent_on. rewrite elem_of_distinct. query_simpl. naive_solver.
Qed.

Lemma lookup_absentees db date k t :
  absentees db date !! k = Some t -> t ∈ teachers db.
Proof. intros Hk. eapply elem_of_absentees, list_elem_of_lookup_2, Hk. Qed.

Lemma absentees_nil db date :
  absentees db date = [] <-> forall t, t ∈ teachers db -> ~ absent_on db date (t_id t).
Proof.
  split.
  - intros Hnil t Ht Habs.
    assert (t ∈ absentees db date) as Hin by (apply elem_of_absentees; auto).
    rewrite Hnil in Hin. by apply elem_of_nil in Hin.
  - intros Hnone. destruct (absentees db date) as [|t l] eqn:E; [done|].
    assert (t ∈ absentees db date) as (Ht & Habs)%elem_of_absentees
      by (rewrite E; left).
    by destruct (Hnone t).
Qed.

Lemma elem_of_missed_classes db date tid r :
  r ∈ missed_classes db date tid <-> missed_spec db date tid r.
Proof.
  unfold missed_classes, missed_join, missed_spec. rewrite elem_of_order_by.
  query_simpl. naive_solver.
Qed.

Lemma first_id_named_Ok abs o sel :
  first_id_named abs o = Ok sel ->
  exists t, t ∈ abs /\ t_id t = sel /\ o = Some (t_name t).
Proof.
  unfold first_id_named. rewrite py_some_Ok.
  destruct (filter _ abs) as [|t l] eqn:E; simpl; [done|].
  intros [= <-]. exists t.
  assert (t ∈ filter (fun t => Some (t_name t) = o) abs) as Ht by (rewrite E; left).
  rewrite list_elem_of_filter in Ht. naive_solver.
Qed.

Lemma first_id_named_Raise abs o e :
  first_id_named abs o = Raise e ->
  e = StopIteration /\ forall t, t ∈ abs -> o <> Some (t_name t).
Proof.
  unfold first_id_named.
  destruct (filter _ abs) as [|t l] eqn:E; simpl; [|done].
  intros [= <-]. split; [done|]. intros t Ht Ho.
  assert (t ∈ filter (fun t => Some (t_name t) = o) abs) as Hf
    by (rewrite list_elem_of_filter; auto).
  rewrite E in Hf. by apply elem_of_nil in Hf.
Qed.
End queries.

(** ** The pipeline, branch by branch *)

Section pipeline.
Variables (db : store) (curdate pick : nat).

Let abs := absentees db curdate.
Let choice := first_id_named abs (selectbox (map t_name abs) pick).

Lemma find_substitutions_Ok res :
  find_substitutions db curdate pick = Ok res ->
  (abs = [] /\ res = AllPresent) \/
  exists sel, abs <> [] /\ choice = Ok sel /\
    ((missed_classes db curdate sel = [] /\ res = NoScheduledPeriods abs sel) \/
     (missed_classes db curdate sel <> [] /\
      res = Suggestions abs sel (missed_classes db curdate sel)
              (map (fun r => (r, free_teachers db curdate (m_period r) sel))
                 (missed_classes db curdate sel)))).
Proof.
  unfold find_substitutions. fold abs choice.
  destruct (decide (abs = [])) as [Habs|Habs]; [intros [= <-]; by left|].
  destruct choice as [sel|e]; simpl; [|done].
  destruct (decide (missed_classes db curdate sel = [])); intros [= <-]; right;
    exists sel; naive_solver.
Qed.

Lemma find_substitutions_Raise e :
  find_substitutions db curdate pick = Raise e ->
  abs <> [] /\ length abs <= pick /\ e = StopIteration.
Proof.
  unfold find_substitutions. fold abs choice.
  destruct (decide _) as [|Hne]; [intros [=]|].
  destruct choice as [sel|e'] eqn:E; simpl.
  - by destruct (decide _); intros [=].
  - intros [= <-]. apply first_id_named_Raise in E as [-> Hnone].
    split; [done|]. split; [|done].
    destruct (decide (length abs <= pick)); [done|].
    destruct (lookup_lt_is_Some_2 abs pick) as [t Ht]; [lia|].
    destruct (Hnone t); [by eapply list_elem_of_lookup_2|].
    by rewrite selectbox_map, Ht.
Qed.

Lemma find_substitutions_Suggestions abs' sel missed subs :
  find_substitutions db curdate pick = Ok (Suggestions abs' sel missed subs) ->
  abs' = abs /\ choice = Ok sel /\ missed = missed_classes db curdate sel /\
  missed <> [] /\
  subs = map (fun r => (r, free_teachers db curdate (m_period r) sel)) missed.
Proof. intros H. apply find_substitutions_Ok in H. naive_solver. Qed.

Lemma find_substitutions_selected abs' sel :
  (find_substitutions db curdate pick = Ok (NoScheduledPeriods abs' sel) \/
   exists missed subs,
     find_substitutions db curdate pick = Ok (Suggestions abs' sel missed subs)) ->
  abs' = abs /\ choice = Ok sel.
Proof.
  intros [H|(missed & subs & H)]; apply find_substitutions_Ok in H; naive_solver.
Qed.
End pipeline.

(** ** Theorems *)

Section theorems.
Variables (db : store) (curdate pick : nat).

(** C1 (refinement, specification 4.3): in a run that suggests
    substitutes, every missed period gets its own list, and that list
    holds exactly the teachers [eligible] for that period: present in the
    teachers table, not teaching at that period of the day, not the
    absentee, not marked absent that day. *)
Theorem suggestions_refine_eligible abs sel missed subs :
  find_substitutions db curdate pick = Ok (Suggestions abs sel missed subs) ->
  map fst subs = missed /\
  forall r ts, (r, ts) ∈ subs ->
    forall t, t ∈ ts <-> eligible db curdate (m_period r) sel t.
Proof.
  intros (_ & _ & _ & _ & ->)%find_substitutions_Suggestions. split.
  - rewrite map_map. apply map_id.
  - intros r ts (r' & [= -> ->] & _)%elem_of_map t. apply elem_of_free_teachers.
Qed.

(** C2 (functional, specification 4.2 and P3): the missed periods are
    sorted by period, and they are exactly the slots of the day's weekday
    whose (class, subject) is assigned to the chosen absentee and whose
    class and subject rows exist. *)
Theorem missed_periods_sorted_exact abs sel missed subs :
  find_substitutions db curdate pick = Ok (Suggestions abs sel missed subs) ->
  sorted_on m_period missed /\
  forall r, r ∈ missed <-> missed_spec db curdate sel r.
Proof.
  intros (_ & _ & -> & _ & _)%find_substitutions_Suggestions. split.
  - apply order_by_sorted.
  - intros r. apply elem_of_missed_classes.
Qed.


(** C3 (functional, scenario B): the handler stops with "All teachers
    are present today!" exactly when no row of the teachers table has an
    Absent record for the day. *)
Theorem all_present_iff :
  find_substitutions db curdate pick = Ok AllPresent <->
  forall t, t ∈ teachers db -> ~ absent_on db curdate (t_id t).
Proof.
  rewrite <- absentees_nil. split.
  - intros H. apply find_substitutions_Ok in H. naive_solver.
  - intros Hnil. unfold find_substitutions. by rewrite decide_True.
Qed.

(** C4 (functional, scenario C): when the handler reports "no scheduled
    periods", the teacher it reports on is a teacher of the table marked
    absent that day, and every timetable slot of the day taught by that
    teacher lacks its class row or its subject row: either the teacher has
    no slot that day, or each of its slots is orphaned (the missed-period
    query joins classes and subjects). *)
Theorem no_scheduled_periods_sound abs sel :
  find_substitutions db curdate pick = Ok (NoScheduledPeriods abs sel) ->
  (exists t, t ∈ teachers db /\ t_id t = sel /\ absent_on db curdate sel) /\
  forall ct a, ct ∈ class_timetable db -> a ∈ teacher_subject_class db ->
    assigned_to a ct -> tsc_teacher_id a = sel -> ct_day ct = dayname curdate ->
    (forall c, c ∈ classes db -> c_id c <> ct_class_id ct) \/
    (forall s, s ∈ subjects db -> s_id s <> ct_subject_id ct).
Proof.
  intros H. apply find_substitutions_Ok in H
    as [[_ ?]|(sel' & _ & Hsel & [[Hnil [= -> ->]]|[_ ?]])]; try done.
  apply first_id_named_Ok in Hsel as (t & (Ht & Habs)%elem_of_absentees & <- & _).
  split; [eauto|]. intros ct a Hct Ha Has Hid Hday.
  destruct (decide (Exists (fun c => c_id c = ct_class_id ct) (classes db))) as [Hc|Hc];
    [|left; intros c Hc' Hcid; apply Hc, Exists_exists; eauto].
  destruct (decide (Exists (fun s => s_id s = ct_subject_id ct) (subjects db))) as [Hs|Hs];
    [|right; intros s Hs' Hsid; apply Hs, Exists_exists; eauto].
  apply Exists_exists in Hc as (c & Hc & Hcid), Hs as (s & Hs & Hsid). exfalso.
  assert (mkMissed (ct_class_id ct) (c_name c) (ct_subject_id ct) (s_name s) (ct_day ct)
            (ct_period ct) ∈ missed_classes db curdate (t_id t)) as Hin.
  { apply elem_of_missed_classes. exists ct, a, c, s. naive_solver. }
  rewrite Hnil in Hin. by apply elem_of_nil in Hin.
Qed.


(** C5 (liveness): for a pick among the options of the "Select Absent
    Teacher" selectbox the handler returns a result, and that result is
    not "all present". *)
Theorem find_substitutions_returns :
  pick < length (absentees db curdate) ->
  exists res, find_substitutions db curdate pick = Ok res /\ res <> AllPresent.
Proof.
  intros Hpick.
  destruct (find_substitutions db curdate pick) as [res|e] eqn:E.
  - exists res. split; [done|]. intros ->.
    apply find_substitutions_Ok in E as [[Hnil _]|(? & _ & _ & [[_ ?]|[_ ?]])];
      try done.
    rewrite Hnil in Hpick. simpl in Hpick. lia.
  - apply find_substitutions_Raise in E. lia.
Qed.

(** C6 (safety; a defect of the code): the absentee is chosen by name and
    [next(...)] takes the first absentee with that name, so when two
    absentees share a name the later one is never the teacher the
    suggestions are computed for, whatever the user picks. *)
Theorem duplicate_name_unselectable i j t1 t2 abs sel :
  NoDup (map t_id (teachers db)) ->
  absentees db curdate !! i = Some t1 -> absentees db curdate !! j = Some t2 ->
  i < j -> t_name t1 = t_name t2 ->
  (find_substitutions db curdate pick = Ok (NoScheduledPeriods abs sel) \/
   exists missed subs,
     find_substitutions db curdate pick = Ok (Suggestions abs sel missed subs)) ->
  sel <> t_id t2.
Proof.
  intros Hpk Hi Hj Hij Hname Hres ->.
  apply find_substitutions_selected in Hres as [_ Hsel].
  unfold first_id_named in Hsel. apply py_some_Ok, fmap_Some in Hsel as (h & Hh & Hid).
  apply head_filter_Some in Hh as (k & Hk & Hsel & Hbefore).
  assert (h = t2) as ->.
  { eapply NoDup_map_inj_in; [exact Hpk|..|by symmetry];
      eapply lookup_absentees; eauto. }
  assert (k = j) as ->
    by (apply (NoDup_lookup (absentees db curdate) k j t2); [apply NoDup_distinct|done..]).
  apply (Hbefore i t1 Hij Hi). by rewrite Hname.
Qed.

(** C7 (functional, specification 4.1): the absentee list has no
    duplicates and holds exactly the teachers of the table with an Absent
    record that day. *)
Theorem absentees_distinct_exact :
  NoDup (absentees db curdate) /\
  forall t, t ∈ absentees db curdate <-> t ∈ teachers db /\ absent_on db curdate (t_id t).
Proof. split; [apply NoDup_distinct|apply elem_of_absentees]. Qed.
End theorems.

(** ** Scenarios *)

(** Scenario D: with two missed periods, the run reports
    no substitute for period 1 (the only other teachers are teaching or
    absent) and still suggests T2 for period 2; the periods come in order. *)
Example scenario_D_suggestions :
  find_substitutions scenario_D 4 0 =
  Ok (Suggestions [mkTeacher 1 "T1"; mkTeacher 3 "T3"] 1
        [mkMissed "C1" "One" "S1" "Maths" "Monday" 1;
         mkMissed "C1" "One" "S2" "Art" "Monday" 2]
        [(mkMissed "C1" "One" "S1" "Maths" "Monday" 1, []);
         (mkMissed "C1" "One" "S2" "Art" "Monday" 2, [mkTeacher 2 "T2"])]).
Proof. reflexivity. Qed.

(** The free-teacher query has no ORDER BY: suggestions come in the order
    of the teachers table, not ordered by name as the specification's
    section 4.3 asks. *)
Example free_teachers_table_order :
  free_teachers scenario_order 4 1 3 = [mkTeacher 1 "Zoe"; mkTeacher 2 "Adam"].
Proof. reflexivity. Qed.

(** The busy subquery does not join classes, the missed-period query does:
    a slot whose class row is gone keeps its teacher busy, yet is not a
    missed period of that teacher when absent. *)
Example orphan_slot_busy_not_missed :
  busy_ids scenario_orphan "Monday" 1 = [2] /\
  find_substitutions scenario_orphan 4 0 = Ok (NoScheduledPeriods [mkTeacher 2 "T2"] 2).
Proof. split; reflexivity. Qed.

(** ** Witnesses *)

Definition scenario_A_row : missed_row := mkMissed "C1" "One" "S1" "Maths" "Monday" 2.

Lemma suggestions_refine_eligible_witness :
  eligible scenario_A 4 2 1 (mkTeacher 3 "T3") /\
  ~ eligible scenario_A 4 2 1 (mkTeacher 2 "T2").
Proof.
  pose proof (proj2 (suggestions_refine_eligible scenario_A 4 0 [mkTeacher 1 "T1"] 1
           [scenario_A_row] [(scenario_A_row, [mkTeacher 3 "T3"])] eq_refl)
           scenario_A_row [mkTeacher 3 "T3"] ltac:(left)) as H.
  split.
  - apply H. left.
  - intros He%H. apply list_elem_of_singleton in He. discriminate.
Defined.

Lemma missed_periods_sorted_exact_witness :
  sorted_on m_period [scenario_A_row] /\
  forall r, r ∈ [scenario_A_row] <-> missed_spec scenario_A 4 1 r.
Proof.
  exact (missed_periods_sorted_exact scenario_A 4 0 [mkTeacher 1 "T1"] 1
           [scenario_A_row] [(scenario_A_row, [mkTeacher 3 "T3"])] eq_refl).
Defined.


Lemma no_scheduled_periods_sound_witness :
  ((exists t, t ∈ teachers scenario_C /\ t_id t = 1 /\ absent_on scenario_C 4 1) /\
   forall ct a, ct ∈ class_timetable scenario_C -> a ∈ teacher_subject_class scenario_C ->
     assigned_to a ct -> tsc_teacher_id a = 1 -> ct_day ct = dayname 4 ->
     (forall c, c ∈ classes scenario_C -> c_id c <> ct_class_id ct) \/
     (forall s, s ∈ subjects scenario_C -> s_id s <> ct_subject_id ct)) /\
  ((exists t, t ∈ teachers scenario_orphan /\ t_id t = 2 /\ absent_on scenario_orphan 4 2) /\
   forall ct a, ct ∈ class_timetable scenario_orphan -> a ∈ teacher_subject_class scenario_orphan ->
     assigned_to a ct -> tsc_teacher_id a = 2 -> ct_day ct = dayname 4 ->
     (forall c, c ∈ classes scenario_orphan -> c_id c <> ct_class_id ct) \/
     (forall s, s ∈ subjects scenario_orphan -> s_id s <> ct_subject_id ct)).
Proof.
  split.
  - exact (no_scheduled_periods_sound scenario_C 4 0 [mkTeacher 1 "T1"] 1 eq_refl).
  - exact (no_scheduled_periods_sound scenario_orphan 4 0 [mkTeacher 2 "T2"] 2 eq_refl).
Defined.

Lemma find_substitutions_returns_witness :
  exists res, find_substitutions scenario_A 4 0 = Ok res /\ res <> AllPresent.
Proof. apply (find_substitutions_returns scenario_A 4 0). vm_compute. lia. Defined.

Lemma duplicate_name_unselectable_witness :
  (exists abs sel missed subs,
     find_substitutions scenario_same_name 4 1 = Ok (Suggestions abs sel missed subs) \/
     find_substitutions scenario_same_name 4 1 = Ok (NoScheduledPeriods abs sel)) /\
  forall abs sel,
    find_substitutions scenario_same_name 4 1 = Ok (NoScheduledPeriods abs sel) -> sel <> 2.
Proof.
  split.
  - exists [mkTeacher 1 "Asha"; mkTeacher 2 "Asha"], 1, [], []. right. reflexivity.
  - intros abs sel H.
    apply (duplicate_name_unselectable scenario_same_name 4 1 0 1
             (mkTeacher 1 "Asha") (mkTeacher 2 "Asha") abs sel).
    + apply (bool_decide_unpack _). by vm_compute.
    + reflexivity.
    + reflexivity.
    + lia.
    + reflexivity.
    + left. exact H.
Defined.

End Engine.
