(* ===== verification/Timetable.v ===== *)
(** * Timetable: [manage_class_timetable] (src/functions.py, lines 98-168)

    The handler lists the timetable of one class on one day, deletes an
    entry when its button is clicked, and on "Save/Update" looks up the
    row of the chosen (class, day, period): an existing row gets the new
    subject (UPDATE), otherwise a row is inserted.  The class id comes from
    the label of the class selectbox through [int(...)], so a class whose
    id is not a decimal integer raises [ValueError]; an empty class or
    subject list makes a selectbox return [None], and [None.split] raises
    [AttributeError].

    The integer class id is passed to MySQL as a parameter: the row stores
    its decimal text [str_Z], and the comparisons [ct.class_id = %s] are
    modelled as string equality with that text, which is MySQL's numeric
    comparison on the rows this handler writes. *)

From S2P Require Import Prelude Schema Substitution.

Module Timetable.

(** A row of [SELECT ct.id, ct.period, s.s_name]. *)
Record tt_entry := mkEntry { e_id : nat; e_period : nat; e_s_name : string }.

(** [SELECT ct.id, ct.period, s.s_name FROM class_timetable ct
     JOIN subjects s ON ct.subject_id = s.s_id
     WHERE ct.class_id = %s AND ct.day = %s ORDER BY ct.period] *)
Definition class_day_entries (db : store) (class_id day : string) : list tt_entry :=
  order_by e_period
    (flat_map (fun ct =>
       map (fun s => mkEntry (ct_id ct) (ct_period ct) (s_name s))
         (filter (fun s => ct_subject_id ct = s_id s) (subjects db)))
      (filter (fun ct => ct_class_id ct = class_id /\ ct_day ct = day)
         (class_timetable db))).

(** [DELETE FROM class_timetable WHERE id = %s] *)
Definition delete_entry (db : store) (id : nat) : store :=
  set_class_timetable db (filter (fun ct => ct_id ct <> id) (class_timetable db))
    (next_ct_id db).

(** The key of the timetable's intended uniqueness: (class, day, period). *)
Definition slot_key (ct : ct_row) : string * string * nat :=
  (ct_class_id ct, ct_day ct, ct_period ct).

(** [SELECT id FROM class_timetable
     WHERE class_id = %s AND day = %s AND period = %s], then [fetchone()]. *)
Definition existing_slot (db : store) (class_id day : string) (period : nat) : option nat :=
  head (map ct_id (filter (fun ct => slot_key ct = (class_id, day, period))
                     (class_timetable db))).

(** [UPDATE class_timetable SET subject_id = %s WHERE id = %s] *)
Definition update_subject (db : store) (id : nat) (subject_id : string) : store :=
  set_class_timetable db
    (map (fun ct => if decide (ct_id ct = id)
                    then mkCt (ct_id ct) (ct_class_id ct) subject_id (ct_day ct) (ct_period ct)
                    else ct)
       (class_timetable db))
    (next_ct_id db).

(** [INSERT INTO class_timetable (class_id, subject_id, day, period)]; the
    id is the table's AUTO_INCREMENT counter. *)
Definition insert_slot (db : store) (class_id subject_id day : string) (period : nat) : store :=
  set_class_timetable db
    (class_timetable db ++ [mkCt (next_ct_id db) class_id subject_id day period])
    (S (next_ct_id db)).

(** Lines 144-162: update the existing row of the slot, or insert one. *)
Definition save_slot (db : store) (class_id day : string) (period : nat)
    (subject_id : string) : store :=
  match existing_slot db class_id day period with
  | Some id => update_subject db id subject_id
  | None => insert_slot db class_id subject_id day period
  end.

(** What the user does on the page in one run: nothing, click the delete
    button of the [k]-th listed entry, or submit the form with a period and
    a subject picked. *)
Inductive tt_event :=
  | TT_Show
  | TT_Delete (k : nat)
  | TT_Save (period_pick subject_pick : nat).

(** One run of the handler: the store after it, and the entries it lists.
    A pick outside a selectbox's options is no input Streamlit produces; it
    leaves the store unchanged. *)
Definition manage_class_timetable (db : store) (class_pick day_pick : nat)
    (ev : tt_event) : py_result (store * list tt_entry) :=
  let class_opts := map (fun c => label (c_id c) (c_name c)) (classes db) in
  match selectbox school_days day_pick with
  | None => Ok (db, [])
  | Some day =>
      class_option <- py_some AttributeError (selectbox class_opts class_pick) ;;
      class_id <- py_some ValueError (py_int (label_id class_option)) ;;
      let cid := str_Z class_id in
      let timetable := class_day_entries db cid day in
      match ev with
      | TT_Show => Ok (db, timetable)
      | TT_Delete k =>
          match timetable !! k with
          | Some e => Ok (delete_entry db (e_id e), timetable)
          | None => Ok (db, timetable)
          end
      | TT_Save period_pick subject_pick =>
          match selectbox period_options period_pick with
          | None => Ok (db, timetable)
          | Some period =>
              subject <- py_some AttributeError
                (selectbox (map (fun s => label (s_id s) (s_name s)) (subjects db))
                   subject_pick) ;;
              Ok (save_slot db cid day period (label_id subject), timetable)
          end
      end
  end.

(** ** The timetable's well-formedness *)

(** Ids are unique and below the AUTO_INCREMENT counter; at most one row per
    (class, day, period); days and periods are options of the form. *)
Definition timetable_wf (db : store) : Prop :=
  NoDup (map ct_id (class_timetable db)) /\
  (forall ct, ct ∈ class_timetable db -> ct_id ct < next_ct_id db) /\
  NoDup (map slot_key (class_timetable db)) /\
  (forall ct, ct ∈ class_timetable db ->
     ct_day ct ∈ school_days /\ ct_period ct ∈ period_options).

(** The subjects stored for one slot. *)
Definition slot_subjects (db : store) (class_id day : string) (period : nat) : list string :=
  map ct_subject_id
    (filter (fun ct => slot_key ct = (class_id, day, period)) (class_timetable db)).

(** A store with one numeric class and one subject, an empty timetable. *)
Definition tt_demo : store :=
  mkStore [mkTeacher 1 "Asha"] [mkClass "101" "Ten A"] [mkSubject "S1" "Maths"]
          [mkTsc 1 1 "S1" "101"] [] [] 2 2 1.

(** The same with the class id the form suggests (C101). *)
Definition tt_demo_C101 : store :=
  mkStore [] [mkClass "C101" "Ten A"] [mkSubject "S1" "Maths"] [] [] [] 1 1 1.

(** A class whose id has a leading zero; Asha (1) teaches S1 there and is
    absent on day 4 (a Monday). *)
Definition tt_demo_007 : store :=
  mkStore [mkTeacher 1 "Asha"] [mkClass "007" "Bond"] [mkSubject "S1" "Maths"]
          [mkTsc 1 1 "S1" "007"] [] [mkTa 1 4 Absent] 2 2 1.

(** ** Lemmas on the operations *)

Section slot_lemmas.
Implicit Types (db : store).

Lemma existing_slot_None db cid day period :
  existing_slot db cid day period = None ->
  forall ct, ct ∈ class_timetable db -> slot_key ct <> (cid, day, period).
Proof.
  unfold existing_slot.
  destruct (filter _ (class_timetable db)) as [|ct l] eqn:E; simpl; [|done].
  intros _. exact (proj1 (filter_nil_iff _ _) E).
Qed.

Lemma existing_slot_Some db cid day period id :
  existing_slot db cid day period = Some id ->
  exists ct, ct ∈ class_timetable db /\ ct_id ct = id /\ slot_key ct = (cid, day, period).
Proof.
  unfold existing_slot.
  destruct (filter _ (class_timetable db)) as [|ct l] eqn:E; simpl; [done|].
  intros [= <-]. exists ct.
  assert (ct ∈ filter (fun ct => slot_key ct = (cid, day, period)) (class_timetable db))
    as Hct by (rewrite E; left).
  apply list_elem_of_filter in Hct. naive_solver.
Qed.

Lemma update_subject_rows db id sid ct' :
  ct' ∈ class_timetable (update_subject db id sid) <->
  exists ct, ct ∈ class_timetable db /\ ct_id ct' = ct_id ct /\ slot_key ct' = slot_key ct /\
    ct_subject_id ct' = (if decide (ct_id ct = id) then sid else ct_subject_id ct).
Proof.
  simpl. rewrite elem_of_map. split.
  - intros (ct & -> & Hct). exists ct. case_decide; naive_solver.
  - intros (ct & Hct & Hid & Hkey & Hsub). exists ct. split; [|done].
    destruct ct', ct; unfold slot_key in *; simpl in *; simplify_eq.
    case_decide; simplify_eq; done.
Qed.

Lemma update_subject_map {B} (f : ct_row -> B) db id sid :
  (forall ct s, f (mkCt (ct_id ct) (ct_class_id ct) s (ct_day ct) (ct_period ct)) = f ct) ->
  map f (class_timetable (update_subject db id sid)) = map f (class_timetable db).
Proof.
  intros Hf. simpl. rewrite map_map. apply map_ext. intros ct. case_decide; auto.
Qed.

Lemma save_slot_wf db cid day period sid :
  timetable_wf db -> day ∈ school_days -> period ∈ period_options ->
  timetable_wf (save_slot db cid day period sid).
Proof.
  intros (Hids & Hnext & Hkeys & Hopts) Hday Hper. unfold save_slot.
  destruct (existing_slot db cid day period) as [id|] eqn:E.
  - unfold timetable_wf. rewrite !update_subject_map by done.
    split; [done|]. split.
    { intros x (y & Hy & Hid & _)%update_subject_rows. rewrite Hid. by apply Hnext. }
    split; [done|].
    intros x (y & Hy & _ & Hkey & _)%update_subject_rows.
    unfold slot_key in Hkey. injection Hkey as _ Hd Hp. rewrite Hd, Hp. by apply Hopts.
  - pose proof (existing_slot_None _ _ _ _ E) as Hfree.
    unfold timetable_wf, insert_slot. simpl. rewrite !map_app. simpl.
    split; [|split; [|split]].
    + apply NoDup_app. repeat split; [done| |apply NoDup_singleton].
      intros i Hi Hi'%list_elem_of_singleton. subst i.
      apply elem_of_map in Hi as (ct & Hid & Hct). specialize (Hnext ct Hct). lia.
    + intros ct [Hct|Hct%list_elem_of_singleton]%elem_of_app; subst; simpl; [|lia].
      specialize (Hnext ct Hct). lia.
    + apply NoDup_app. repeat split; [done| |apply NoDup_singleton].
      intros k Hk Hk'%list_elem_of_singleton. subst k.
      apply elem_of_map in Hk as (ct & Hkey & Hct). by apply (Hfree ct).
    + intros ct [Hct|Hct%list_elem_of_singleton]%elem_of_app; subst; [by apply Hopts|by split].
Qed.

Lemma delete_entry_wf db id : timetable_wf db -> timetable_wf (delete_entry db id).
Proof.
  intros (Hids & Hnext & Hkeys & Hopts). unfold timetable_wf, delete_entry. simpl.
  split; [by apply NoDup_map_filter|]. split.
  { intros ct (_ & Hct)%list_elem_of_filter. by apply Hnext. }
  split; [by apply NoDup_map_filter|].
  intros ct (_ & Hct)%list_elem_of_filter. by apply Hopts.
Qed.

Lemma slot_subjects_update_subject db id sid k :
  slot_subjects (update_subject db id sid) k.1.1 k.1.2 k.2 =
  map (fun ct => if decide (ct_id ct = id) then sid else ct_subject_id ct)
    (filter (fun ct => slot_key ct = k) (class_timetable db)).
Proof.
  destruct k as [[c d] p]. unfold slot_subjects. simpl.
  rewrite filter_map_key, map_map; [|intros ct; by case_decide].
  apply map_ext. intros ct. by case_decide.
Qed.

Lemma slot_subjects_insert_slot db cid sid day period k :
  slot_subjects (insert_slot db cid sid day period) k.1.1 k.1.2 k.2 =
  (slot_subjects db k.1.1 k.1.2 k.2 ++ (if decide (k = (cid, day, period)) then [sid] else []))%list.
Proof.
  destruct k as [[c d] p]. unfold slot_subjects. simpl.
  rewrite filter_app, map_app, filter_cons, filter_nil. unfold slot_key. simpl.
  repeat case_decide; simplify_eq; done.
Qed.
End slot_lemmas.

(** ** Theorems *)

Lemma manage_class_timetable_preserves db c d ev db' entries :
  timetable_wf db -> manage_class_timetable db c d ev = Ok (db', entries) ->
  timetable_wf db'.
Proof.
  intros Hwf. unfold manage_class_timetable.
  destruct (selectbox school_days d) as [day|] eqn:Hday; [|by intros [= <- _]].
  destruct (selectbox _ c) as [lbl|]; cbn [py_some py_bind]; [|done].
  destruct (py_int _) as [z|]; cbn [py_some py_bind]; [|done].
  destruct ev as [|k|pp sp].
  - by intros [= <- _].
  - destruct (_ !! k) as [e|]; intros [= <- _]; [by apply delete_entry_wf|done].
  - destruct (selectbox period_options pp) as [period|] eqn:Hp; [|by intros [= <- _]].
    destruct (selectbox _ sp); cbn [py_some py_bind]; [|done].
    intros [= <- _]. apply save_slot_wf; [done|..]; by eapply list_elem_of_lookup_2.
Qed.

(** C8 (invariant): one run of [manage_class_timetable], whatever the
    picks and the button or form used, keeps the timetable well formed:
    unique ids below the AUTO_INCREMENT counter, at most one row per
    (class, day, period), days among the six school days, periods in 1..8. *)
Theorem manage_class_timetable_wf db c d ev db' entries :
  timetable_wf db -> manage_class_timetable db c d ev = Ok (db', entries) ->
  timetable_wf db'.
Proof. apply manage_class_timetable_preserves. Qed.

(** C9 (functional): saving a subject for a (class, day, period) leaves
    exactly that subject in the slot, whether the slot existed (UPDATE) or
    not (INSERT), and leaves every other slot as it was. *)
Theorem save_slot_sets_slot db cid day period sid :
  timetable_wf db ->
  slot_subjects (save_slot db cid day period sid) cid day period = [sid] /\
  forall k, k <> (cid, day, period) ->
    slot_subjects (save_slot db cid day period sid) k.1.1 k.1.2 k.2 =
    slot_subjects db k.1.1 k.1.2 k.2.
Proof.
  intros (Hids & _ & Hkeys & _). unfold save_slot.
  destruct (existing_slot db cid day period) as [id|] eqn:E.
  - apply existing_slot_Some in E as (ct0 & Hct0 & Hid & Hkey). split.
    + pose proof (slot_subjects_update_subject db id sid (cid, day, period)) as Hu.
      cbn [fst snd] in Hu. rewrite Hu, <- Hkey.
      rewrite filter_key_unique by done. simpl. by rewrite decide_True.
    + intros k Hk. rewrite slot_subjects_update_subject.
      destruct k as [[c d] p]. unfold slot_subjects. simpl. apply map_ext_in.
      intros ct (Hkct & Hct)%list_elem_of_In%list_elem_of_filter.
      rewrite decide_False; [done|]. intros Heq. apply Hk.
      rewrite <- Hkct, <- Hkey. f_equal.
      apply (NoDup_map_inj_in ct_id (class_timetable db)); congruence.
  - pose proof (existing_slot_None _ _ _ _ E) as Hfree. split.
    + pose proof (slot_subjects_insert_slot db cid sid day period (cid, day, period)) as Hi.
      cbn [fst snd] in Hi. rewrite Hi, decide_True by done. simpl. unfold slot_subjects.
      rewrite (proj2 (filter_nil_iff _ _)); [done|]. exact Hfree.
    + intros k Hk. rewrite slot_subjects_insert_slot, decide_False by done.
      apply app_nil_r.
Qed.

(** C10 (error; a defect of the code): for a class whose id is not a
    decimal integer, such as the C101 the class form itself suggests, the
    timetable page raises [ValueError] at [int(...)] on every run, so that
    class's timetable can be neither shown nor edited. *)
Theorem non_integer_class_id_raises db c d ev cl :
  classes db !! c = Some cl -> sep_free label_sep (c_id cl) = true ->
  py_int (c_id cl) = None -> d < length school_days ->
  manage_class_timetable db c d ev = Raise ValueError.
Proof.
  intros Hc Hfree Hint Hd. unfold manage_class_timetable.
  destruct (lookup_lt_is_Some_2 school_days d Hd) as [day Hday].
  unfold selectbox at 1. rewrite Hday.
  rewrite selectbox_map, Hc. cbn [fmap option_fmap option_map py_some py_bind].
  unfold label_id, label. by rewrite split_head_app, Hint.
Qed.

(** C11 (functional): for a class whose id is the decimal text [str(z)]
    of an integer (the ids the page can handle), "Save" stores the slot
    under the class's own id, [str(int(id)) = id], and the page lists that
    class's slots of the day: the [int()] round trip loses nothing. *)
Theorem canonical_class_id_edits_own_slot db class_pick day_pick pp sp c z day period subj
    db' es :
  classes db !! class_pick = Some c -> c_id c = str_Z z -> sep_free label_sep (c_id c) = true ->
  school_days !! day_pick = Some day -> period_options !! pp = Some period ->
  map (fun s => label (s_id s) (s_name s)) (subjects db) !! sp = Some subj ->
  manage_class_timetable db class_pick day_pick (TT_Save pp sp) = Ok (db', es) ->
  db' = save_slot db (c_id c) day period (label_id subj) /\
  es = class_day_entries db (c_id c) day.
Proof.
  intros Hc Hz Hsep Hday Hp Hs. unfold manage_class_timetable, selectbox at 1.
  rewrite Hday, selectbox_map, Hc. cbn [fmap option_fmap option_map py_some py_bind].
  unfold label_id, label in *. rewrite split_head_app by done. rewrite Hz at 1.
  rewrite py_int_str_Z. cbn [py_some py_bind]. rewrite <- Hz.
  unfold selectbox. rewrite Hp, Hs. cbn [py_some py_bind]. by intros [= <- <-].
Qed.

(** C12 (functional): the page lists the entries of the chosen class and
    day sorted by period: exactly the timetable rows of that class and day
    whose subject row exists, with the subject's name. *)
Theorem class_day_entries_sorted_exact db cid day :
  sorted_on e_period (class_day_entries db cid day) /\
  forall e, e ∈ class_day_entries db cid day <->
    exists ct s, ct ∈ class_timetable db /\ s ∈ subjects db /\
      ct_class_id ct = cid /\ ct_day ct = day /\ ct_subject_id ct = s_id s /\
      e = mkEntry (ct_id ct) (ct_period ct) (s_name s).
Proof.
  split; [apply order_by_sorted|].
  intros e. unfold class_day_entries. rewrite elem_of_order_by. query_simpl. naive_solver.
Qed.

(** The timetable stores [str(int("007"))] = "7": the slot saved for class
    007 on Monday, period 1, no longer matches the class row or the
    assignment, so the absent teacher's substitution run finds nothing. *)
Example leading_zero_class_id_orphans_slot :
  exists db' entries,
    manage_class_timetable tt_demo_007 0 0 (TT_Save 0 0) = Ok (db', entries) /\
    class_timetable db' = [mkCt 1 "7" "S1" "Monday" 1] /\
    Engine.find_substitutions db' 4 0 =
      Ok (Engine.NoScheduledPeriods [mkTeacher 1 "Asha"] 1).
Proof. eexists _, _. split; [reflexivity|]. split; reflexivity. Qed.

(** ** Witnesses *)

Lemma manage_class_timetable_wf_witness :
  exists db' entries,
    manage_class_timetable tt_demo 0 0 (TT_Save 1 0) = Ok (db', entries) /\
    timetable_wf db'.
Proof.
  eexists _, _. split; [reflexivity|].
  eapply (manage_class_timetable_wf tt_demo 0 0 (TT_Save 1 0)); [|reflexivity].
  split; [constructor|]. split; [intros ct Hct; by apply elem_of_nil in Hct|].
  split; [constructor|]. intros ct Hct; by apply elem_of_nil in Hct.
Defined.

Lemma save_slot_sets_slot_witness :
  slot_subjects (save_slot tt_demo "101" "Monday" 2 "S1") "101" "Monday" 2 = ["S1"] /\
  slot_subjects (save_slot tt_demo "101" "Monday" 2 "S1") "101" "Monday" 3 = [].
Proof.
  assert (timetable_wf tt_demo) as Hwf.
  { split; [constructor|]. split; [intros ct Hct; by apply elem_of_nil in Hct|].
    split; [constructor|]. intros ct Hct; by apply elem_of_nil in Hct. }
  destruct (save_slot_sets_slot tt_demo "101" "Monday" 2 "S1" Hwf) as [H1 H2].
  split; [exact H1|]. apply (H2 ("101", "Monday", 3)). discriminate.
Defined.

Lemma non_integer_class_id_raises_witness :
  manage_class_timetable tt_demo_C101 0 0 TT_Show = Raise ValueError.
Proof.
  apply (non_integer_class_id_raises tt_demo_C101 0 0 TT_Show (mkClass "C101" "Ten A"));
    [reflexivity|reflexivity|reflexivity|simpl; lia].
Defined.

Lemma canonical_class_id_edits_own_slot_witness :
  exists db' es, manage_class_timetable tt_demo 0 0 (TT_Save 1 0) = Ok (db', es) /\
    db' = save_slot tt_demo "101" "Monday" 2 "S1" /\ es = class_day_entries tt_demo "101" "Monday".
Proof.
  eexists _, _. split; [reflexivity|].
  apply (canonical_class_id_edits_own_slot tt_demo 0 0 1 0 (mkClass "101" "Ten A") 101
           "Monday" 2 "S1 - Maths"); reflexivity.
Defined.

End Timetable.
