(* ===== verification/Attendance.v ===== *)
(** * Attendance: [mark_teacher_attendance] (src/functions.py, lines 171-222)

    The handler reads Python's [date.today()], lists the teachers by name
    with a Present/Absent radio each (preset from today's records, Present
    when there is none) and, when the form is submitted, walks the radio
    selections: a teacher with a record today gets an UPDATE of every row
    of (teacher, today), any other teacher an INSERT.  Whether a teacher
    "has a record" is decided on the dict read before the form, not
    re-queried.

    The theorems: after a submission each teacher's rows of the day exist
    and carry the radio's status, other rows are untouched, at most one row
    per (teacher, date) stays so, and the marks reach [find_substitutions]
    exactly when Python's date equals MySQL's [CURDATE()]. *)

From S2P Require Import Prelude Schema Substitution.

Module Attendance.

(** [SELECT t_id, t_name FROM teachers ORDER BY t_name] *)
Definition teachers_by_name (db : store) : list teacher :=
  order_by_name t_name (teachers db).

(** [{row['teacher_id']: row['status'] for row in
      SELECT teacher_id, status FROM teacher_attendence WHERE date = %s}] *)
Definition attendance_records (db : store) (today : nat) : list (nat * status) :=
  dict_of (map (fun ta => (ta_teacher_id ta, ta_status ta))
             (filter (fun ta => ta_date ta = today) (teacher_attendence db))).

(** The radio's preset: [attendance_records.get(t_id, 'Present')]. *)
Definition current_status (recs : list (nat * status)) (tid : nat) : status :=
  default Present (dict_get recs tid).

(** [selections[t_id] = st.radio(...)] for every listed teacher; [pick]
    gives the option each radio shows when the form is submitted. *)
Definition selections (db : store) (pick : nat -> status) : list (nat * status) :=
  dict_of (map (fun t => (t_id t, pick (t_id t))) (teachers_by_name db)).

Definition att_key (ta : ta_row) : nat * nat := (ta_teacher_id ta, ta_date ta).

(** [UPDATE teacher_attendence SET status = %s
     WHERE teacher_id = %s AND date = %s] *)
Definition update_status (db : store) (tid today : nat) (st : status) : store :=
  set_attendance db
    (map (fun ta => if decide (att_key ta = (tid, today))
                    then mkTa (ta_teacher_id ta) (ta_date ta) st else ta)
       (teacher_attendence db)).

(** [INSERT INTO teacher_attendence (teacher_id, date, status)] *)
Definition insert_status (db : store) (tid today : nat) (st : status) : store :=
  set_attendance db (teacher_attendence db ++ [mkTa tid today st]).

(** One iteration of [for teacher_id, status in selections.items()]. *)
Definition save_step (today : nat) (recs : list (nat * status)) (db : store)
    (sel : nat * status) : store :=
  if dict_mem recs sel.1 then update_status db sel.1 today sel.2
  else insert_status db sel.1 today sel.2.

Definition save_attendance (db : store) (today : nat) (recs sels : list (nat * status)) : store :=
  fold_left (save_step today recs) sels db.

(** One run: the store after it and the radios it shows with their
    presets; [submitted] is the form's "Save Attendance" button. *)
Definition mark_teacher_attendance (db : store) (today : nat) (submitted : bool)
    (pick : nat -> status) : store * list (teacher * status) :=
  let recs := attendance_records db today in
  let shown := map (fun t => (t, current_status recs (t_id t))) (teachers_by_name db) in
  if submitted then (save_attendance db today recs (selections db pick), shown)
  else (db, shown).

(** The rows of one (teacher, date). *)
Definition att_rows (db : store) (k : nat * nat) : list ta_row :=
  filter (fun ta => att_key ta = k) (teacher_attendence db).

(** At most one row per (teacher, date). *)
Definition attendance_unique (db : store) : Prop :=
  NoDup (map att_key (teacher_attendence db)).

(** Asha (1) already has a Present row for day 4; Ravi (2) has none; an
    older Absent row of Asha on day 3. *)
Definition att_demo : store :=
  mkStore [mkTeacher 1 "Asha"; mkTeacher 2 "Ravi"] [] [] [] []
          [mkTa 1 3 Absent; mkTa 1 4 Present] 3 1 1.

(** The radios at submission: Asha switched to Absent, Ravi left Present. *)
Definition demo_pick (tid : nat) : status := if Nat.eqb tid 1 then Absent else Present.

(** ** Lemmas on the operations *)

Section attendance_lemmas.
Implicit Types (db : store).

Lemma att_rows_nil db k :
  att_rows db k = [] <-> forall ta, ta ∈ teacher_attendence db -> att_key ta <> k.
Proof. apply filter_nil_iff. Qed.

Lemma att_rows_update db tid today st k :
  att_rows (update_status db tid today st) k =
  if decide (k = (tid, today))
  then map (fun ta => mkTa (ta_teacher_id ta) (ta_date ta) st) (att_rows db k)
  else att_rows db k.
Proof.
  unfold att_rows, update_status. simpl.
  rewrite filter_map_key by (intros ta; by case_decide).
  case_decide as Hk.
  - subst k. apply map_ext_in.
    intros ta (Hta & _)%list_elem_of_In%list_elem_of_filter. by rewrite decide_True.
  - rewrite <- (map_id (filter _ _)) at 2. apply map_ext_in.
    intros ta (Hta & _)%list_elem_of_In%list_elem_of_filter.
    rewrite decide_False; congruence.
Qed.

Lemma att_rows_insert db tid today st k :
  att_rows (insert_status db tid today st) k =
  (att_rows db k ++ (if decide (k = (tid, today)) then [mkTa tid today st] else []))%list.
Proof.
  unfold att_rows, insert_status. simpl.
  rewrite filter_app, filter_cons, filter_nil. unfold att_key. simpl.
  repeat case_decide; simplify_eq; done.
Qed.

Lemma att_rows_save_step db today recs tid st k :
  att_rows (save_step today recs db (tid, st)) k =
  if decide (k = (tid, today))
  then (if dict_mem recs tid
        then map (fun ta => mkTa (ta_teacher_id ta) (ta_date ta) st) (att_rows db k)
        else (att_rows db k ++ [mkTa tid today st])%list)
  else att_rows db k.
Proof.
  unfold save_step. simpl. destruct (dict_mem recs tid).
  - by rewrite att_rows_update.
  - rewrite att_rows_insert. case_decide; [done|apply app_nil_r].
Qed.

Lemma att_rows_save db today recs sels k :
  NoDup (map fst sels) ->
  att_rows (save_attendance db today recs sels) k =
  match (if decide (k.2 = today) then dict_get sels k.1 else None) with
  | Some st =>
      if dict_mem recs k.1
      then map (fun ta => mkTa (ta_teacher_id ta) (ta_date ta) st) (att_rows db k)
      else (att_rows db k ++ [mkTa k.1 today st])%list
  | None => att_rows db k
  end.
Proof.
  unfold save_attendance. revert db. destruct k as [kt kd]. simpl.
  induction sels as [|[tid st] sels IH]; intros db Hnd; simpl.
  - by case_decide.
  - apply NoDup_cons in Hnd as [Hnin Hnd]. rewrite IH by done.
    rewrite att_rows_save_step.
    destruct (decide ((kt, kd) = (tid, today))) as [Heq|Hne].
    + injection Heq as -> ->. rewrite !decide_True by done.
      by rewrite dict_get_not_key.
    + destruct (decide (kd = today)) as [->|]; [|done].
      rewrite decide_False by congruence. done.
Qed.

Lemma dict_mem_attendance_records db today tid :
  dict_mem (attendance_records db today) tid = true <-> att_rows db (tid, today) <> [].
Proof.
  rewrite dict_mem_true. unfold attendance_records.
  rewrite (proj2 (dict_of_keys _) tid), map_map, elem_of_map.
  setoid_rewrite list_elem_of_filter. simpl. split.
  - intros (ta & -> & Hd & Hta). rewrite att_rows_nil.
    intros Hall. apply (Hall ta Hta). unfold att_key. by rewrite Hd.
  - destruct (att_rows db (tid, today)) as [|ta l] eqn:E; [done|]. intros _.
    assert (ta ∈ att_rows db (tid, today)) as (Hk & Hta)%list_elem_of_filter
      by (rewrite E; left).
    unfold att_key in Hk. injection Hk as <- <-. eauto.
Qed.

Lemma selections_keys db pick : NoDup (map fst (selections db pick)).
Proof. apply dict_of_keys. Qed.

Lemma selections_get_teacher db pick t :
  t ∈ teachers db -> dict_get (selections db pick) (t_id t) = Some (pick (t_id t)).
Proof.
  intros Ht. apply dict_get_of_const.
  - apply elem_of_map. exists t. split; [done|]. by apply elem_of_order_by_name.
  - intros v (t' & [= Hid Hv] & _)%elem_of_map. by rewrite Hv, Hid.
Qed.

Lemma selections_get db pick tid st :
  dict_get (selections db pick) tid = Some st -> exists t, t ∈ teachers db /\ t_id t = tid.
Proof.
  intros Hget%dict_get_Some.
  assert (tid ∈ map fst (selections db pick)) as Hk
    by (apply elem_of_map; exists (tid, st); split; [done|exact Hget]).
  unfold selections in Hk. rewrite (proj2 (dict_of_keys _) tid), map_map in Hk.
  apply elem_of_map in Hk as (t & -> & Ht). apply elem_of_order_by_name in Ht. eauto.
Qed.

Lemma save_attendance_teachers db today recs sels :
  teachers (save_attendance db today recs sels) = teachers db.
Proof.
  unfold save_attendance. revert db.
  induction sels as [|sel sels IH]; intros db; simpl; [done|].
  rewrite IH. unfold save_step. by destruct (dict_mem _ _).
Qed.

Lemma absent_on_att_rows db d tid :
  Engine.absent_on db d tid <->
  exists ta, ta ∈ att_rows db (tid, d) /\ ta_status ta = Absent.
Proof.
  unfold Engine.absent_on, att_rows, att_key. setoid_rewrite list_elem_of_filter.
  split.
  - intros (ta & Hta & <- & <- & Hs). eauto.
  - intros (ta & (Hk & Hta) & Hs). injection Hk as <- <-. eauto.
Qed.

(** After a submission, each teacher of the table has rows for today, all
    with the radio's status. *)
Lemma save_rows_teacher db today pick t :
  t ∈ teachers db ->
  att_rows (save_attendance db today (attendance_records db today) (selections db pick))
    (t_id t, today) <> [] /\
  forall ta, ta ∈ att_rows (save_attendance db today (attendance_records db today)
                              (selections db pick)) (t_id t, today) ->
    ta_status ta = pick (t_id t).
Proof.
  intros Ht. rewrite att_rows_save by apply selections_keys. simpl.
  rewrite decide_True by done. rewrite selections_get_teacher by done.
  destruct (dict_mem _ _) eqn:Hmem.
  - apply dict_mem_attendance_records in Hmem. split.
    + intros Hnil. by apply map_eq_nil in Hnil.
    + by intros ta (ta0 & -> & _)%elem_of_map.
  - assert (att_rows db (t_id t, today) = []) as ->.
    { destruct (decide (att_rows db (t_id t, today) = [])) as [|Hne]; [done|].
      apply dict_mem_attendance_records in Hne. congruence. }
    split; [done|]. by intros ta ->%list_elem_of_singleton.
Qed.

(** A submission touches only today's rows of listed teachers. *)
Lemma save_rows_frame db today pick tid d :
  (d <> today \/ forall t, t ∈ teachers db -> t_id t <> tid) ->
  att_rows (save_attendance db today (attendance_records db today) (selections db pick))
    (tid, d) = att_rows db (tid, d).
Proof.
  intros Hd. rewrite att_rows_save by apply selections_keys. simpl.
  case_decide as Hdt; [|done]. destruct Hd as [Hd|Hnot]; [contradiction|].
  destruct (dict_get (selections db pick) tid) eqn:E; [|done].
  apply selections_get in E as (t & Ht & <-). by destruct (Hnot t Ht).
Qed.
End attendance_lemmas.

(** ** Theorems *)

(** C14 (functional): after "Save Attendance", every teacher of the table
    has rows for today and all of them carry the status of that teacher's
    radio; rows of other days, and of ids that are no teacher, are
    untouched. *)
Theorem save_marks_each_teacher db today pick db' shown :
  mark_teacher_attendance db today true pick = (db', shown) ->
  (forall t, t ∈ teachers db ->
     att_rows db' (t_id t, today) <> [] /\
     forall ta, ta ∈ att_rows db' (t_id t, today) -> ta_status ta = pick (t_id t)) /\
  (forall tid d, (d <> today \/ forall t, t ∈ teachers db -> t_id t <> tid) ->
     att_rows db' (tid, d) = att_rows db (tid, d)).
Proof.
  unfold mark_teacher_attendance. intros [= <- _]. split.
  - intros t Ht. by apply save_rows_teacher.
  - intros tid d Hd. by apply save_rows_frame.
Qed.

Lemma mark_attendance_preserves db today submitted pick db' shown :
  attendance_unique db ->
  mark_teacher_attendance db today submitted pick = (db', shown) ->
  attendance_unique db'.
Proof.
  unfold attendance_unique. rewrite !NoDup_map_filter_length. intros Huniq.
  unfold mark_teacher_attendance. destruct submitted; intros [= <- _]; [|done].
  intros [tid d]. change (length (att_rows (save_attendance db today
    (attendance_records db today) (selections db pick)) (tid, d)) <= 1).
  rewrite att_rows_save by apply selections_keys. simpl.
  destruct (decide (d = today)) as [->|]; [|apply Huniq].
  destruct (dict_get _ tid) as [st|]; [|apply Huniq].
  destruct (dict_mem _ tid) eqn:Hmem.
  - rewrite length_map. apply Huniq.
  - assert (att_rows db (tid, today) = []) as ->; [|simpl; lia].
    destruct (decide (att_rows db (tid, today) = [])) as [|Hne]; [done|].
    apply dict_mem_attendance_records in Hne. congruence.
Qed.

(** C15 (invariant): a run, submitted or not, keeps at most one row per
    (teacher, date): a teacher with a row today is updated in place, and
    only a teacher without one gets an INSERT, once. *)
Theorem mark_attendance_unique db today submitted pick db' shown :
  attendance_unique db ->
  mark_teacher_attendance db today submitted pick = (db', shown) ->
  attendance_unique db'.
Proof. apply mark_attendance_preserves. Qed.

(** C16 (safety; a gap of the specification): marking a teacher absent
    makes them an absentee of [find_substitutions] exactly when the date
    Python used ([date.today()]) is MySQL's [CURDATE()]: the two clocks are
    read separately, and a mark made under another date is invisible. *)
Theorem marked_absent_visible_iff_same_day db today curdate pick t db' shown :
  mark_teacher_attendance db today true pick = (db', shown) ->
  t ∈ teachers db -> pick (t_id t) = Absent -> ~ Engine.absent_on db curdate (t_id t) ->
  (t ∈ Engine.absentees db' curdate <-> today = curdate).
Proof.
  unfold mark_teacher_attendance. intros [= <- _] Ht Hpick Hnot.
  rewrite Engine.elem_of_absentees, save_attendance_teachers, absent_on_att_rows.
  split.
  - intros [_ (ta & Hta & Habs)]. destruct (decide (today = curdate)); [done|].
    exfalso. apply Hnot, absent_on_att_rows.
    rewrite (save_rows_frame db today pick (t_id t) curdate) in Hta by (left; congruence).
    eauto.
  - intros <-. split; [done|].
    destruct (save_rows_teacher db today pick t Ht) as [Hne Hall].
    destruct (att_rows (save_attendance db today (attendance_records db today)
                (selections db pick)) (t_id t, today)) as [|ta l] eqn:E; [done|].
    exists ta. split; [left|]. rewrite Hall; [done|left].
Qed.

(** ** Witnesses *)

Lemma save_marks_each_teacher_witness :
  exists db' shown,
    mark_teacher_attendance att_demo 4 true demo_pick = (db', shown) /\
    att_rows db' (2, 4) <> [] /\ att_rows db' (1, 3) = [mkTa 1 3 Absent].
Proof.
  exists (fst (mark_teacher_attendance att_demo 4 true demo_pick)), (snd (mark_teacher_attendance att_demo 4 true demo_pick)). split; [reflexivity|].
  destruct (save_marks_each_teacher att_demo 4 demo_pick (fst (mark_teacher_attendance att_demo 4 true demo_pick)) (snd (mark_teacher_attendance att_demo 4 true demo_pick)) eq_refl)
    as [H1 H2].
  split; [apply (H1 (mkTeacher 2 "Ravi")); right; left|].
  rewrite (H2 1 3); [reflexivity|]. left. lia.
Defined.

Lemma mark_attendance_unique_witness :
  exists db' shown,
    mark_teacher_attendance att_demo 4 true demo_pick = (db', shown) /\
    attendance_unique db'.
Proof.
  exists (fst (mark_teacher_attendance att_demo 4 true demo_pick)), (snd (mark_teacher_attendance att_demo 4 true demo_pick)). split; [reflexivity|].
  apply (mark_attendance_unique att_demo 4 true demo_pick (fst (mark_teacher_attendance att_demo 4 true demo_pick)) (snd (mark_teacher_attendance att_demo 4 true demo_pick)));
    [|reflexivity].
  apply (bool_decide_unpack _). by vm_compute.
Defined.

Lemma marked_absent_visible_iff_same_day_witness :
  exists db' shown,
    mark_teacher_attendance att_demo 4 true demo_pick = (db', shown) /\
    mkTeacher 1 "Asha" ∈ Engine.absentees db' 4 /\
    (mkTeacher 1 "Asha" ∈ Engine.absentees db' 5 <-> 4 = 5).
Proof.
  exists (fst (mark_teacher_attendance att_demo 4 true demo_pick)), (snd (mark_teacher_attendance att_demo 4 true demo_pick)). split; [reflexivity|]. split.
  - apply (marked_absent_visible_iff_same_day att_demo 4 4 demo_pick _ (fst (mark_teacher_attendance att_demo 4 true demo_pick)) (snd (mark_teacher_attendance att_demo 4 true demo_pick)) eq_refl);
      [left|reflexivity|..|reflexivity].
    rewrite absent_on_att_rows. intros (ta & Hta & Hs).
    vm_compute in Hta. apply list_elem_of_singleton in Hta. by subst.
  - apply (marked_absent_visible_iff_same_day att_demo 4 5 demo_pick _ (fst (mark_teacher_attendance att_demo 4 true demo_pick)) (snd (mark_teacher_attendance att_demo 4 true demo_pick)) eq_refl);
      [left|reflexivity|].
    rewrite absent_on_att_rows. intros (ta & Hta & Hs).
    vm_compute in Hta. by apply elem_of_nil in Hta.
Defined.

End Attendance.
