(* ===== verification/Teachers.v ===== *)
(** * Teachers: [manage_teachers] (src/functions.py, lines 6-95)

    The handler offers "-- Add New --" and the teachers by name.  On
    "-- Add New --" it inserts a teacher when "Add Teacher" is clicked with
    a name, sets the session flag [teacher_added] and reruns; the next run
    shows the success message and clears the flag.  On a teacher it resolves
    the name to an id through the dict [{t_name: t_id}], and can assign a
    (subject, class) (the unique key [unique_subject_class] turns a second
    teacher for the same pair into a warning), delete one of the listed
    assignments, or delete the teacher with all its assignments.

    The unique key is part of the schema (db.py), which is not in the
    sources: it is modelled from the specification (section 3). *)

From S2P Require Import Prelude Schema Substitution.

Module Teachers.

(** The first option of the teacher selectbox. *)
Definition add_new_label : string := "-- Add New --".

(** [{t['t_name']: t['t_id'] for t in teachers}] over [SELECT * FROM teachers] *)
Definition teacher_names (db : store) : list (string * nat) :=
  dict_of (map (fun t => (t_name t, t_id t)) (teachers db)).

(** [["-- Add New --"] + list(teacher_names.keys())] *)
Definition teacher_options (db : store) : list string :=
  add_new_label :: map fst (teacher_names db).

(** Lines 22-39: the teacher the page edits, [None] for "-- Add New --";
    [teacher_names[teacher_selected]] raises [KeyError] on a missing name. *)
Definition select_teacher (db : store) (pick : nat) : py_result (option nat) :=
  match selectbox (teacher_options db) pick with
  | None => Ok None
  | Some sel =>
      if decide (sel = add_new_label) then Ok None
      else tid <- py_some KeyError (dict_get (teacher_names db) sel) ;; Ok (Some tid)
  end.

(** [INSERT INTO teachers (t_name) VALUES (%s)] *)
Definition insert_teacher (db : store) (name : string) : store :=
  set_teachers db ((teachers db ++ [mkTeacher (next_t_id db) name])%list) (S (next_t_id db)).

(** The unique key [unique_subject_class (subject_id, class_id)]. *)
Definition subject_class_taken (db : store) (sid cid : string) : Prop :=
  Exists (fun a => tsc_subject_id a = sid /\ tsc_class_id a = cid) (teacher_subject_class db).

#[export] Instance subject_class_taken_dec db sid cid : Decision (subject_class_taken db sid cid).
Proof. unfold subject_class_taken. apply _. Defined.

(** [INSERT INTO teacher_subject_class (teacher_id, subject_id, class_id)];
    [None] is the [IntegrityError] of the unique key. *)
Definition insert_assignment (db : store) (tid : nat) (sid cid : string) : option store :=
  if decide (subject_class_taken db sid cid) then None
  else Some (set_tsc db ((teacher_subject_class db ++ [mkTsc (next_tsc_id db) tid sid cid])%list)
               (S (next_tsc_id db))).

(** A row of [SELECT tsc.id, s.s_name, c.c_name]. *)
Record assignment_row := mkAssignment { as_id : nat; as_s_name : string; as_c_name : string }.

(** [SELECT tsc.id, s.s_name, c.c_name FROM teacher_subject_class tsc
     JOIN subjects s ON s.s_id = tsc.subject_id
     JOIN classes c ON c.c_id = tsc.class_id WHERE tsc.teacher_id = %s] *)
Definition teacher_assignments (db : store) (tid : nat) : list assignment_row :=
  flat_map (fun a =>
    flat_map (fun s =>
      map (fun c => mkAssignment (tsc_id a) (s_name s) (c_name c))
        (filter (fun c => c_id c = tsc_class_id a) (classes db)))
      (filter (fun s => s_id s = tsc_subject_id a) (subjects db)))
    (filter (fun a => tsc_teacher_id a = tid) (teacher_subject_class db)).

(** [DELETE FROM teacher_subject_class WHERE id = %s] *)
Definition delete_assignment (db : store) (id : nat) : store :=
  set_tsc db (filter (fun a => tsc_id a <> id) (teacher_subject_class db)) (next_tsc_id db).

(** [DELETE FROM teacher_subject_class WHERE teacher_id = %s], then
    [DELETE FROM teachers WHERE t_id = %s]. *)
Definition delete_teacher (db : store) (tid : nat) : store :=
  let db1 := set_tsc db (filter (fun a => tsc_teacher_id a <> tid) (teacher_subject_class db))
               (next_tsc_id db) in
  set_teachers db1 (filter (fun t => t_id t <> tid) (teachers db1)) (next_t_id db1).

(** What the user does in one run. *)
Inductive teacher_event :=
  | TE_None
  | TE_AddTeacher (new_name : string)
  | TE_Assign (subject_pick class_pick : nat)
  | TE_DeleteAssignment (k : nat)
  | TE_DeleteTeacher.

(** The message the run shows. *)
Inductive teacher_feedback :=
  | FB_None
  | FB_TeacherAdded         (** after the rerun that follows an insert *)
  | FB_Assigned
  | FB_AlreadyAssigned      (** the unique_subject_class warning *)
  | FB_AssignmentDeleted
  | FB_TeacherDeleted.

(** One run: the store, the session flag [teacher_added] after it, and the
    message shown.  [flag] is the flag before the run. *)
Definition manage_teachers (db : store) (flag : bool) (teacher_pick : nat)
    (ev : teacher_event) : py_result (store * bool * teacher_feedback) :=
  sel <- select_teacher db teacher_pick ;;
  match sel with
  | None =>
      match ev with
      | TE_AddTeacher name =>
          if decide (name = "") then Ok (db, false, if flag then FB_TeacherAdded else FB_None)
          else Ok (insert_teacher db name, true, FB_None)
      | _ => Ok (db, false, if flag then FB_TeacherAdded else FB_None)
      end
  | Some teacher_id =>
      match ev with
      | TE_Assign subject_pick class_pick =>
          subject <- py_some AttributeError
            (selectbox (map (fun s => label (s_id s) (s_name s)) (subjects db)) subject_pick) ;;
          class_selected <- py_some AttributeError
            (selectbox (map (fun c => label (c_id c) (c_name c)) (classes db)) class_pick) ;;
          match insert_assignment db teacher_id (label_id subject) (label_id class_selected) with
          | Some db' => Ok (db', flag, FB_Assigned)
          | None => Ok (db, flag, FB_AlreadyAssigned)
          end
      | TE_DeleteAssignment k =>
          match teacher_assignments db teacher_id !! k with
          | Some r => Ok (delete_assignment db (as_id r), flag, FB_AssignmentDeleted)
          | None => Ok (db, flag, FB_None)
          end
      | TE_DeleteTeacher => Ok (delete_teacher db teacher_id, flag, FB_TeacherDeleted)
      | _ => Ok (db, flag, FB_None)
      end
  end.

(** ** Well-formedness of the teachers and assignments *)

(** Primary key of teachers and AUTO_INCREMENT ids of both tables below their
    counters; the unique key (subject_id, class_id). *)
Definition teachers_wf (db : store) : Prop :=
  NoDup (map t_id (teachers db)) /\
  (forall t, t ∈ teachers db -> t_id t < next_t_id db) /\
  NoDup (map tsc_id (teacher_subject_class db)) /\
  (forall a, a ∈ teacher_subject_class db -> tsc_id a < next_tsc_id db) /\
  NoDup (map (fun a => (tsc_subject_id a, tsc_class_id a)) (teacher_subject_class db)).

(** Two teachers named Asha (ids 1 and 3) and Ravi (id 2), who teaches
    Maths in class C1, on Monday period 1. *)
Definition teachers_demo : store :=
  mkStore [mkTeacher 1 "Asha"; mkTeacher 2 "Ravi"; mkTeacher 3 "Asha"]
          [mkClass "C1" "Ten A"] [mkSubject "S1" "Maths"; mkSubject "S2" "Physics"]
          [mkTsc 1 2 "S1" "C1"]
          [mkCt 1 "C1" "S1" "Monday" 1; mkCt 2 "C1" "S2" "Monday" 2]
          [mkTa 2 4 Absent] 4 2 3.

(** A teacher whose name is the label of the add-new option. *)
Definition teachers_demo_add_new : store :=
  set_teachers teachers_demo [mkTeacher 1 "-- Add New --"; mkTeacher 2 "Ravi"] 3.

(** Ravi (id 2) teaches Physics in C1; Asha (id 3) teaches Maths in C1. *)
Definition teachers_demo_two : store :=
  set_tsc teachers_demo [mkTsc 1 3 "S1" "C1"; mkTsc 2 2 "S2" "C1"] 3.

(** ** Lemmas *)

Section teacher_lemmas.
Implicit Types (db : store).

Lemma select_teacher_Some db pick tid :
  select_teacher db pick = Ok (Some tid) ->
  exists sel, sel <> add_new_label /\ dict_get (teacher_names db) sel = Some tid.
Proof.
  unfold select_teacher. destruct (selectbox _ pick) as [sel|]; [|done].
  case_decide; [done|]. destruct (dict_get _ sel) eqn:E; simpl; [|done].
  intros [= <-]. eauto.
Qed.

(** The name resolved by [teacher_names[teacher_selected]] is the name of
    the last teacher row with that name. *)
Lemma teacher_names_last db sel tid :
  dict_get (teacher_names db) sel = Some tid ->
  exists k t, teachers db !! k = Some t /\ t_name t = sel /\ t_id t = tid /\
    forall j t', k < j -> teachers db !! j = Some t' -> t_name t' <> sel.
Proof.
  intros (k & Hk & Hafter)%dict_of_last.
  apply lookup_map_Some in Hk as (t & Ht & [= -> ->]).
  exists k, t. repeat (split; [done|]). intros j t' Hj Ht'.
  apply (Hafter j (t_name t', t_id t') Hj), lookup_map_Some. eauto.
Qed.

(** The row an edited teacher comes from: a teacher not named
    "-- Add New --" and the last row of its name. *)
Lemma select_teacher_row db pick tid :
  NoDup (map t_id (teachers db)) ->
  select_teacher db pick = Ok (Some tid) ->
  exists k t, teachers db !! k = Some t /\ t_id t = tid /\ t_name t <> add_new_label /\
    forall j t', k < j -> teachers db !! j = Some t' -> t_name t' <> t_name t.
Proof.
  intros _ (sel & Hsel & Hget)%select_teacher_Some.
  apply teacher_names_last in Hget as (k & t & Hk & <- & Hid & Hafter). eauto 10.
Qed.

(** A teacher row is the row with its id. *)
Lemma teacher_row_unique db i k t t' :
  NoDup (map t_id (teachers db)) -> teachers db !! i = Some t -> teachers db !! k = Some t' ->
  t_id t' = t_id t -> i = k /\ t' = t.
Proof.
  intros Hnd Hi Hk Hid.
  assert (t' = t) as ->.
  { eapply NoDup_map_inj_in; [exact Hnd| | |exact Hid]; eapply list_elem_of_lookup_2; eauto. }
  split; [|done]. eapply NoDup_lookup; [apply (NoDup_fmap_1 t_id); exact Hnd|exact Hi|exact Hk].
Qed.

(** A listed assignment is an assignment row of the teacher. *)
Lemma teacher_assignments_row db tid r :
  r ∈ teacher_assignments db tid ->
  exists a, a ∈ teacher_subject_class db /\ tsc_teacher_id a = tid /\ as_id r = tsc_id a.
Proof. unfold teacher_assignments. query_simpl. naive_solver. Qed.

Lemma insert_teacher_wf db name : teachers_wf db -> teachers_wf (insert_teacher db name).
Proof.
  intros (Hnd & Hlt & Hrest). split; [|split]; simpl; [| |exact Hrest].
  - apply NoDup_map_snoc; [done|]. simpl.
    intros (t & Ht & Hin)%elem_of_map. specialize (Hlt t Hin). lia.
  - intros t [Ht|Ht]%elem_of_app; [specialize (Hlt t Ht); lia|].
    apply list_elem_of_singleton in Ht as ->. simpl. lia.
Qed.

Lemma insert_assignment_wf db tid sid cid db' :
  teachers_wf db -> insert_assignment db tid sid cid = Some db' -> teachers_wf db'.
Proof.
  unfold insert_assignment. case_decide as Htaken; [done|]. intros (H1 & H2 & Hnd & Hlt & Hkey) [= <-].
  unfold teachers_wf; simpl. do 2 (split; [done|]). split; [|split].
  - apply NoDup_map_snoc; [done|]. simpl.
    intros (a & Ha & Hin)%elem_of_map. specialize (Hlt a Hin). lia.
  - intros a [Ha|Ha]%elem_of_app; [specialize (Hlt a Ha); lia|].
    apply list_elem_of_singleton in Ha as ->. simpl. lia.
  - apply NoDup_map_snoc; [done|]. simpl.
    intros (a & [= Hs Hc] & Hin)%elem_of_map. apply Htaken, Exists_exists. eauto.
Qed.

Lemma delete_assignment_wf db id : teachers_wf db -> teachers_wf (delete_assignment db id).
Proof.
  intros (H1 & H2 & Hnd & Hlt & Hkey). unfold teachers_wf; simpl.
  do 2 (split; [done|]). split; [|split]; [by apply NoDup_map_filter| |by apply NoDup_map_filter].
  intros a (_ & Ha)%list_elem_of_filter. auto.
Qed.

Lemma delete_teacher_wf db tid : teachers_wf db -> teachers_wf (delete_teacher db tid).
Proof.
  intros (Hnd & Hlt & Hnd' & Hlt' & Hkey). unfold teachers_wf; simpl.
  split; [by apply NoDup_map_filter|]. split; [intros t (_ & Ht)%list_elem_of_filter; auto|].
  split; [by apply NoDup_map_filter|]. split; [|by apply NoDup_map_filter].
  intros a (_ & Ha)%list_elem_of_filter. auto.
Qed.

End teacher_lemmas.

(** ** Theorems *)

Lemma manage_teachers_preserves db flag pick ev db' flag' fb :
  teachers_wf db -> manage_teachers db flag pick ev = Ok (db', flag', fb) -> teachers_wf db'.
Proof.
  intros Hwf. unfold manage_teachers.
  destruct (select_teacher db pick) as [[tid|]|]; simpl; [|destruct ev|done];
    [destruct ev| | | | |]; try (intros [= <- _ _]; done).
  - destruct (selectbox _ subject_pick); simpl; [|done].
    destruct (selectbox _ class_pick); simpl; [|done].
    destruct (insert_assignment _ _ _ _) eqn:E; intros [= <- _ _]; eauto using insert_assignment_wf.
  - destruct (teacher_assignments db tid !! k); intros [= <- _ _]; auto using delete_assignment_wf.
  - intros [= <- _ _]. auto using delete_teacher_wf.
  - case_decide; intros [= <- _ _]; auto using insert_teacher_wf.
Qed.

(** C17 (functional): "Delete This Teacher" removes the edited teacher and
    exactly its assignments and keeps every other row, so the substitution
    engine never again sees it teaching or absent (its attendance rows are
    left behind but no longer join with a teacher). *)
Theorem delete_teacher_forgets db flag pick tid db' flag' fb :
  select_teacher db pick = Ok (Some tid) ->
  manage_teachers db flag pick TE_DeleteTeacher = Ok (db', flag', fb) ->
  fb = FB_TeacherDeleted /\ flag' = flag /\
  (forall t, t ∈ teachers db' <-> t ∈ teachers db /\ t_id t <> tid) /\
  (forall a, a ∈ teacher_subject_class db' <->
             a ∈ teacher_subject_class db /\ tsc_teacher_id a <> tid) /\
  (forall day period, ~ Engine.teaching_at db' day period tid) /\
  (forall date t, t_id t = tid -> t ∉ Engine.absentees db' date).
Proof.
  intros Hsel. unfold manage_teachers. rewrite Hsel. simpl. intros [= <- <- <-].
  unfold delete_teacher; simpl. split; [done|]. split; [done|].
  split; [intros t; by rewrite list_elem_of_filter; naive_solver|].
  split; [intros a; by rewrite list_elem_of_filter; naive_solver|].
  split.
  - intros day period (a & ct & (Ha & _)%list_elem_of_filter & _ & _ & _ & _ & Hid). done.
  - intros date t Hid (Ht & _)%Engine.elem_of_absentees.
    apply list_elem_of_filter in Ht as [Ht _]. done.
Qed.

(** C18 (safety): of two teachers with the same name, the earlier one can
    never be edited or deleted: [{t_name: t_id}] keeps the last id of a
    name, so no pick of the selectbox resolves to the earlier teacher. *)
Theorem namesake_unselectable db pick i j t1 t2 tid :
  NoDup (map t_id (teachers db)) ->
  teachers db !! i = Some t1 -> teachers db !! j = Some t2 -> i < j ->
  t_name t2 = t_name t1 ->
  select_teacher db pick = Ok (Some tid) -> tid <> t_id t1.
Proof.
  intros Hnd Hi Hj Hij Hname Hsel ->.
  destruct (select_teacher_row db pick _ Hnd Hsel) as (k & t & Hk & Hid & _ & Hafter).
  destruct (teacher_row_unique db i k t1 t Hnd Hi Hk Hid) as [<- ->].
  by apply (Hafter j t2 Hij Hj).
Qed.

(** C19 (safety): a teacher named "-- Add New --" can never be edited:
    its name is taken for the add-new option. *)
Theorem add_new_named_teacher_unselectable db pick t tid :
  NoDup (map t_id (teachers db)) -> t ∈ teachers db -> t_name t = add_new_label ->
  select_teacher db pick = Ok (Some tid) -> tid <> t_id t.
Proof.
  intros Hnd (i & Hi)%list_elem_of_lookup Hname Hsel ->.
  destruct (select_teacher_row db pick _ Hnd Hsel) as (k & t' & Hk & Hid & Hnot & _).
  destruct (teacher_row_unique db i k t t' Hnd Hi Hk Hid) as [_ ->]. done.
Qed.

(** C20 (functional): "Assign" with a subject and a class whose pair already
    has a teacher leaves the store as it is and shows the
    unique_subject_class warning; otherwise it appends the assignment with
    the next id and shows the success message. *)
Theorem assign_result db flag pick sp cp tid sub cls db' flag' fb :
  select_teacher db pick = Ok (Some tid) ->
  selectbox (map (fun s => label (s_id s) (s_name s)) (subjects db)) sp = Some sub ->
  selectbox (map (fun c => label (c_id c) (c_name c)) (classes db)) cp = Some cls ->
  manage_teachers db flag pick (TE_Assign sp cp) = Ok (db', flag', fb) ->
  (subject_class_taken db (label_id sub) (label_id cls) ->
     db' = db /\ fb = FB_AlreadyAssigned) /\
  (~ subject_class_taken db (label_id sub) (label_id cls) ->
     fb = FB_Assigned /\ teachers db' = teachers db /\
     teacher_subject_class db' =
       (teacher_subject_class db ++ [mkTsc (next_tsc_id db) tid (label_id sub) (label_id cls)])%list).
Proof.
  intros Hsel Hs Hc. unfold manage_teachers. rewrite Hsel, Hs, Hc. simpl.
  unfold insert_assignment. case_decide as Htaken; intros [= <- <- <-].
  - split; [done|]. intros []. done.
  - split; [done|]. intros _. done.
Qed.

(** C21 (functional): the delete button of the [k]-th listed assignment
    of the edited teacher removes exactly one row of teacher_subject_class:
    the row of that teacher the button was shown for, at whatever position
    of the table it is; the teachers are untouched. *)
Theorem delete_assignment_removes_clicked db flag pick tid k r db' flag' fb :
  NoDup (map tsc_id (teacher_subject_class db)) ->
  select_teacher db pick = Ok (Some tid) ->
  teacher_assignments db tid !! k = Some r ->
  manage_teachers db flag pick (TE_DeleteAssignment k) = Ok (db', flag', fb) ->
  fb = FB_AssignmentDeleted /\ teachers db' = teachers db /\
  exists i a, teacher_subject_class db !! i = Some a /\ tsc_teacher_id a = tid /\
    tsc_id a = as_id r /\ teacher_subject_class db' = delete i (teacher_subject_class db).
Proof.
  intros Hnd Hsel Hk. unfold manage_teachers. rewrite Hsel. simpl. rewrite Hk.
  intros [= <- <- <-]. split; [done|]. split; [done|].
  apply list_elem_of_lookup_2, teacher_assignments_row in Hk as (a & Ha & Hid & Hr).
  apply list_elem_of_lookup in Ha as [i Hi]. exists i, a. do 3 (split; [done|]).
  unfold delete_assignment. simpl. rewrite Hr. by apply filter_key_delete.
Qed.

Lemma delete_teacher_forgets_witness :
  Engine.teaching_at teachers_demo "Monday" 1 2 /\
  exists db', manage_teachers teachers_demo false 2 TE_DeleteTeacher = Ok (db', false, FB_TeacherDeleted) /\
    ~ Engine.teaching_at db' "Monday" 1 2.
Proof.
  split.
  - exists (mkTsc 1 2 "S1" "C1"), (mkCt 1 "C1" "S1" "Monday" 1).
    split; [left|]. split; [left|]. split; [split; reflexivity|]. auto.
  - eexists. split; [reflexivity|].
    destruct (delete_teacher_forgets teachers_demo false 2 2 _ false FB_TeacherDeleted
                eq_refl eq_refl) as (_ & _ & _ & _ & Hteach & _).
    apply Hteach.
Defined.

Lemma namesake_unselectable_witness :
  select_teacher teachers_demo 1 = Ok (Some 3) /\ 3 <> 1.
Proof.
  split; [reflexivity|].
  apply (namesake_unselectable teachers_demo 1 0 2 (mkTeacher 1 "Asha") (mkTeacher 3 "Asha") 3);
    [apply (bool_decide_unpack _); vm_compute; exact I|reflexivity|reflexivity|lia|reflexivity
    |reflexivity].
Defined.

Lemma add_new_named_teacher_unselectable_witness :
  select_teacher teachers_demo_add_new 1 = Ok None /\
  select_teacher teachers_demo_add_new 2 = Ok (Some 2) /\ 2 <> 1.
Proof.
  split; [reflexivity|]. split; [reflexivity|].
  apply (add_new_named_teacher_unselectable teachers_demo_add_new 2 (mkTeacher 1 "-- Add New --") 2);
    [apply (bool_decide_unpack _); vm_compute; exact I|left|reflexivity|reflexivity].
Defined.

Lemma assign_result_witness :
  exists db', manage_teachers teachers_demo false 1 (TE_Assign 1 0) = Ok (db', false, FB_Assigned) /\
    ~ subject_class_taken teachers_demo "S2" "C1" /\
    teacher_subject_class db' = [mkTsc 1 2 "S1" "C1"; mkTsc 2 3 "S2" "C1"] /\
    manage_teachers teachers_demo false 2 (TE_Assign 0 0) =
      Ok (teachers_demo, false, FB_AlreadyAssigned) /\
    subject_class_taken teachers_demo "S1" "C1".
Proof.
  assert (~ subject_class_taken teachers_demo "S2" "C1") as Hfree
    by (apply (bool_decide_unpack _); vm_compute; exact I).
  assert (subject_class_taken teachers_demo "S1" "C1") as Htaken
    by (apply (bool_decide_unpack _); vm_compute; exact I).
  eexists. split; [reflexivity|]. split; [exact Hfree|].
  split; [|split; [|exact Htaken]].
  - destruct (assign_result teachers_demo false 1 1 0 3 "S2 - Physics" "C1 - Ten A" _ false FB_Assigned
                eq_refl eq_refl eq_refl eq_refl) as [_ Hnew].
    destruct (Hnew Hfree) as (_ & _ & ->). reflexivity.
  - destruct (assign_result teachers_demo false 2 0 0 2 "S1 - Maths" "C1 - Ten A" teachers_demo false
                FB_AlreadyAssigned eq_refl eq_refl eq_refl eq_refl) as [Hold _].
    reflexivity.
Defined.

Lemma delete_assignment_removes_clicked_witness :
  exists db', manage_teachers teachers_demo_two false 2 (TE_DeleteAssignment 0) =
      Ok (db', false, FB_AssignmentDeleted) /\
    teacher_subject_class db' = [mkTsc 1 3 "S1" "C1"] /\
    exists i a, teacher_subject_class teachers_demo_two !! i = Some a /\ tsc_teacher_id a = 2 /\
      tsc_id a = 2 /\ teacher_subject_class db' = delete i (teacher_subject_class teachers_demo_two).
Proof.
  eexists. split; [reflexivity|]. split; [reflexivity|].
  destruct (delete_assignment_removes_clicked teachers_demo_two false 2 2 0
              (mkAssignment 2 "Physics" "Ten A") _ false FB_AssignmentDeleted
              ltac:(apply (bool_decide_unpack _); vm_compute; exact I) eq_refl eq_refl eq_refl)
    as (_ & _ & Hex).
  exact Hex.
Defined.

End Teachers.
