(* ===== verification/Catalog.v ===== *)
(** * Catalog: [manage_classes] and [manage_subjects] (src/functions.py,
    lines 370-438)

    The two pages are the same code over two tables: list the rows with a
    delete button each ([DELETE ... WHERE <id> = %s]), and add a row from
    two text inputs when both are non-empty ([INSERT ... VALUES (%s, %s)],
    an exception shown as an error).  The shared shape is the class
    [Catalog]: a table of the store with an id and a name column; the
    handler [manage_catalog] is written once against it, and the instances
    for [classes] and [subjects] give [manage_classes] and
    [manage_subjects].  The laws [CatalogLaws] are what the handler's
    theorems use: a write to the table reads back and leaves the other
    tables alone.

    The id columns are the identifiers of the specification's entities
    (section 3); as the schema (db.py) is not in the sources, the
    duplicate-id failure of the INSERT is modelled from the spec. *)

From S2P Require Import Prelude Schema Substitution.

Module Catalog.

(** A table of (id, name) rows in the store. *)
Class Catalog (R : Type) := {
  cat_rows : store -> list R;
  cat_set : store -> list R -> store;
  cat_id : R -> string;
  cat_name : R -> string;
  cat_mk : string -> string -> R }.

(** What the handler relies on. *)
Class CatalogLaws (R : Type) `{!Catalog R} := {
  cat_rows_set db l : cat_rows (cat_set db l) = l;
  cat_set_teachers db l : teachers (cat_set db l) = teachers db;
  cat_set_tsc db l : teacher_subject_class (cat_set db l) = teacher_subject_class db;
  cat_set_timetable db l : class_timetable (cat_set db l) = class_timetable db;
  cat_set_attendance db l : teacher_attendence (cat_set db l) = teacher_attendence db;
  cat_id_mk k n : cat_id (cat_mk k n) = k;
  cat_name_mk k n : cat_name (cat_mk k n) = n }.

#[export] Instance class_catalog : Catalog class_row :=
  {| cat_rows := classes; cat_set := set_classes; cat_id := c_id; cat_name := c_name;
     cat_mk := mkClass |}.

#[export] Instance subject_catalog : Catalog subject_row :=
  {| cat_rows := subjects; cat_set := set_subjects; cat_id := s_id; cat_name := s_name;
     cat_mk := mkSubject |}.

#[export] Instance class_catalog_laws : CatalogLaws class_row.
Proof. split; reflexivity. Qed.

#[export] Instance subject_catalog_laws : CatalogLaws subject_row.
Proof. split; reflexivity. Qed.

Section catalog.
Context {R : Type} `{!Catalog R}.

(** [DELETE FROM classes WHERE c_id = %s] *)
Definition catalog_delete (db : store) (k : string) : store :=
  cat_set db (filter (fun r => cat_id r <> k) (cat_rows db)).

(** [INSERT INTO classes (c_id, c_name) VALUES (%s, %s)]; [None] is the
    exception of a duplicate id. *)
Definition catalog_insert (db : store) (k n : string) : option store :=
  if decide (k ∈ map cat_id (cat_rows db)) then None
  else Some (cat_set db ((cat_rows db ++ [cat_mk k n])%list)).

(** What the user does in one run: the delete button of the [i]-th listed
    row, or "Add" with the two text inputs. *)
Inductive catalog_event :=
  | CE_None
  | CE_Delete (i : nat)
  | CE_Add (new_id new_name : string).

Inductive catalog_feedback :=
  | CF_None
  | CF_Deleted (name : string)
  | CF_Added (name id : string)
  | CF_Error.

(** One run of the page. *)
Definition manage_catalog (db : store) (ev : catalog_event) : store * catalog_feedback :=
  match ev with
  | CE_None => (db, CF_None)
  | CE_Delete i =>
      match cat_rows db !! i with
      | Some r => (catalog_delete db (cat_id r), CF_Deleted (cat_name r))
      | None => (db, CF_None)
      end
  | CE_Add k n =>
      if decide (k = "") then (db, CF_None) else
      if decide (n = "") then (db, CF_None) else
      match catalog_insert db k n with
      | Some db' => (db', CF_Added n k)
      | None => (db, CF_Error)
      end
  end.

(** Ids of the table are unique. *)
Definition catalog_wf (db : store) : Prop := NoDup (map cat_id (cat_rows db)).

End catalog.

(** [manage_classes] and [manage_subjects] *)
Definition manage_classes (db : store) (ev : catalog_event) : store * catalog_feedback :=
  manage_catalog (R := class_row) db ev.

Definition manage_subjects (db : store) (ev : catalog_event) : store * catalog_feedback :=
  manage_catalog (R := subject_row) db ev.

(** A class with a Maths assignment for teacher 2 (absent on day 4, a
    Monday) at period 1, and a second class. *)
Definition catalog_demo : store :=
  mkStore [mkTeacher 1 "Asha"; mkTeacher 2 "Ravi"]
          [mkClass "C1" "Ten A"; mkClass "C2" "Ten B"] [mkSubject "S1" "Maths"]
          [mkTsc 1 2 "S1" "C1"] [mkCt 1 "C1" "S1" "Monday" 1]
          [mkTa 2 4 Absent] 3 2 2.

(** ** Lemmas *)

Section catalog_lemmas.
Context {R : Type} `{!Catalog R, !CatalogLaws R}.

Lemma catalog_delete_wf db k : catalog_wf db -> catalog_wf (catalog_delete db k).
Proof. unfold catalog_wf, catalog_delete. rewrite cat_rows_set. apply NoDup_map_filter. Qed.

Lemma catalog_insert_wf db k n db' :
  catalog_wf db -> catalog_insert db k n = Some db' -> catalog_wf db'.
Proof.
  unfold catalog_wf, catalog_insert. case_decide as Hk; [done|]. intros Hnd [= <-].
  rewrite cat_rows_set. apply NoDup_map_snoc; [done|]. by rewrite cat_id_mk.
Qed.

End catalog_lemmas.

(** ** Theorems *)

Lemma manage_catalog_preserves {R} `{!Catalog R, !CatalogLaws R} (db : store) ev :
  catalog_wf (R := R) db -> catalog_wf (R := R) (manage_catalog (R := R) db ev).1.
Proof.
  intros Hwf. destruct ev as [|i|k n]; simpl; [done| |].
  - destruct (cat_rows db !! i); simpl; [by apply catalog_delete_wf|done].
  - repeat case_decide; simpl; try done.
    destruct (catalog_insert db k n) eqn:E; simpl; [|done]. eauto using catalog_insert_wf.
Qed.

(** C22 (functional): "Add" with a non-empty id and name appends the row
    and reports it when the id is new, and reports an error and leaves the
    store as it was when the id is taken; the other tables are untouched. *)
Theorem catalog_add_result {R} `{!Catalog R, !CatalogLaws R} (db : store) k n :
  k <> "" -> n <> "" ->
  (k ∈ map cat_id (cat_rows (R := R) db) ->
     manage_catalog (R := R) db (CE_Add k n) = (db, CF_Error)) /\
  (k ∉ map cat_id (cat_rows (R := R) db) ->
     (manage_catalog (R := R) db (CE_Add k n)).2 = CF_Added n k /\
     cat_rows (manage_catalog (R := R) db (CE_Add k n)).1 = (cat_rows db ++ [cat_mk k n])%list /\
     teachers (manage_catalog (R := R) db (CE_Add k n)).1 = teachers db /\
     teacher_subject_class (manage_catalog (R := R) db (CE_Add k n)).1 = teacher_subject_class db /\
     class_timetable (manage_catalog (R := R) db (CE_Add k n)).1 = class_timetable db).
Proof.
  intros Hk Hn. simpl. rewrite !decide_False by done. unfold catalog_insert.
  split; intros Hin; [by rewrite decide_True|rewrite decide_False by done; simpl].
  rewrite cat_rows_set, cat_set_teachers, cat_set_tsc, cat_set_timetable. done.
Qed.

(** C23 (functional): the delete button of the [i]-th listed class or
    subject removes exactly that row: [DELETE ... WHERE id = %s] with the
    row's id, under unique ids, is the deletion of position [i]; the
    message names the deleted row and no other table changes. *)
Theorem catalog_delete_removes_clicked {R} `{!Catalog R, !CatalogLaws R} (db : store) i r :
  catalog_wf (R := R) db -> cat_rows db !! i = Some r ->
  (manage_catalog (R := R) db (CE_Delete i)).2 = CF_Deleted (cat_name r) /\
  cat_rows (manage_catalog (R := R) db (CE_Delete i)).1 = delete i (cat_rows db) /\
  teachers (manage_catalog (R := R) db (CE_Delete i)).1 = teachers db /\
  teacher_subject_class (manage_catalog (R := R) db (CE_Delete i)).1 = teacher_subject_class db /\
  class_timetable (manage_catalog (R := R) db (CE_Delete i)).1 = class_timetable db /\
  teacher_attendence (manage_catalog (R := R) db (CE_Delete i)).1 = teacher_attendence db.
Proof.
  intros Hwf Hi. simpl. rewrite Hi. simpl. unfold catalog_delete.
  rewrite cat_rows_set, cat_set_teachers, cat_set_tsc, cat_set_timetable, cat_set_attendance.
  split; [done|]. split; [by apply filter_key_delete|done].
Qed.

(** C24 (safety): deleting a class deletes neither its assignments nor its
    timetable slots.  Its teachers stay busy at those periods for the
    free-teacher query, while the missed-period query, which joins
    classes, never again reports a period of that class. *)
Theorem delete_class_orphans_slots (db : store) i c :
  classes db !! i = Some c ->
  let db' := (manage_classes db (CE_Delete i)).1 in
  class_timetable db' = class_timetable db /\
  teacher_subject_class db' = teacher_subject_class db /\
  (forall day period, Engine.busy_ids db' day period = Engine.busy_ids db day period) /\
  (forall date tid m, m ∈ Engine.missed_classes db' date tid -> Engine.m_class_id m <> c_id c).
Proof.
  intros Hc db'. subst db'. unfold manage_classes. simpl. rewrite Hc. simpl.
  split; [done|]. split; [done|]. split; [done|].
  intros date tid m (ct & a & c' & s & _ & _ & Hc' & _ & _ & _ & _ & Hid & _ & ->)%Engine.elem_of_missed_classes.
  simpl in Hc'. apply list_elem_of_filter in Hc' as [Hne _]. simpl in *. congruence.
Qed.

Lemma catalog_add_result_witness :
  manage_classes catalog_demo (CE_Add "C1" "Ten C") = (catalog_demo, CF_Error) /\
  classes (manage_classes catalog_demo (CE_Add "C3" "Ten C")).1 =
    [mkClass "C1" "Ten A"; mkClass "C2" "Ten B"; mkClass "C3" "Ten C"].
Proof.
  destruct (catalog_add_result (R := class_row) catalog_demo "C1" "Ten C") as [Hold _];
    [discriminate|discriminate|].
  destruct (catalog_add_result (R := class_row) catalog_demo "C3" "Ten C") as [_ Hnew];
    [discriminate|discriminate|].
  split; [apply Hold; left|].
  destruct Hnew as (_ & Hrows & _); [apply (bool_decide_unpack _); vm_compute; exact I|].
  exact Hrows.
Defined.

Lemma delete_class_orphans_slots_witness :
  Engine.find_substitutions catalog_demo 4 0 <> Ok (Engine.NoScheduledPeriods [mkTeacher 2 "Ravi"] 2) /\
  Engine.find_substitutions (manage_classes catalog_demo (CE_Delete 0)).1 4 0 =
    Ok (Engine.NoScheduledPeriods [mkTeacher 2 "Ravi"] 2) /\
  Engine.busy_ids (manage_classes catalog_demo (CE_Delete 0)).1 "Monday" 1 = [2].
Proof.
  split; [vm_compute; discriminate|]. split; [vm_compute; reflexivity|].
  destruct (delete_class_orphans_slots catalog_demo 0 (mkClass "C1" "Ten A") eq_refl)
    as (_ & _ & Hbusy & _).
  rewrite Hbusy. reflexivity.
Defined.

Lemma catalog_delete_removes_clicked_witness :
  (manage_classes catalog_demo (CE_Delete 1)).2 = CF_Deleted "Ten B" /\
  classes (manage_classes catalog_demo (CE_Delete 1)).1 = [mkClass "C1" "Ten A"].
Proof.
  destruct (catalog_delete_removes_clicked (R := class_row) catalog_demo 1 (mkClass "C2" "Ten B"))
    as (Hfb & Hrows & _); [apply (bool_decide_unpack _); vm_compute; exact I|reflexivity|].
  split; [exact Hfb|exact Hrows].
Defined.

End Catalog.
