(* ===== verification/Views.v ===== *)
(** * Views: [view_timetables] (src/functions.py, lines 225-288)

    A read-only page: a radio chooses "Teacher" or "Class", a selectbox the
    teacher or class by name (through a dict [{name: id}], so of two rows
    with the same name only the last is reachable), and one query lists its
    timetable ordered by [FIELD(ct.day, 'Monday', ..., 'Saturday')] and
    period.  The teacher view is the timetable the substitution engine
    reasons about; the theorems relate the two. *)

From S2P Require Import Prelude Schema Substitution.

Module Views.

(** [FIELD(ct.day, 'Monday', ..., 'Saturday')]: the 1-based position of
    the day in the list, 0 for a day not in it. *)
Definition field_day (day : string) : nat :=
  match list_find (fun d => d = day) school_days with
  | Some (i, _) => S i
  | None => 0
  end.

(** [{t["t_name"]: t["t_id"] for t in teachers}] *)
Definition teacher_map (db : store) : list (string * nat) :=
  dict_of (map (fun t => (t_name t, t_id t)) (teachers db)).

(** [{c["c_name"]: c["c_id"] for c in classes}] *)
Definition class_map (db : store) : list (string * string) :=
  dict_of (map (fun c => (c_name c, c_id c)) (classes db)).

(** A row of the teacher view: [class_name, subject_name, day, period]. *)
Record teacher_view_row := mkTeacherView {
  tv_class_name : string; tv_subject_name : string; tv_day : string; tv_period : nat }.

(** [SELECT c.c_name, s.s_name, ct.day, ct.period FROM class_timetable ct
     JOIN teacher_subject_class tsc ON ct.class_id = tsc.class_id
                                   AND ct.subject_id = tsc.subject_id
     JOIN classes c ON c.c_id = ct.class_id
     JOIN subjects s ON s.s_id = ct.subject_id
     WHERE tsc.teacher_id = %s ORDER BY FIELD(ct.day, ...), ct.period] *)
Definition teacher_timetable (db : store) (tid : nat) : list teacher_view_row :=
  order_by_lex (fun r => field_day (tv_day r)) tv_period
    (flat_map (fun ct =>
       flat_map (fun a =>
         flat_map (fun c =>
           map (fun s => mkTeacherView (c_name c) (s_name s) (ct_day ct) (ct_period ct))
             (filter (fun s => s_id s = ct_subject_id ct) (subjects db)))
           (filter (fun c => c_id c = ct_class_id ct) (classes db)))
         (filter (fun a => assigned_to a ct /\ tsc_teacher_id a = tid)
            (teacher_subject_class db)))
       (class_timetable db)).

(** A row of the class view: [subject_name, day, period, teacher_name]. *)
Record class_view_row := mkClassView {
  cv_subject_name : string; cv_day : string; cv_period : nat; cv_teacher_name : string }.

(** [SELECT s.s_name, ct.day, ct.period, t.t_name FROM class_timetable ct
     JOIN teacher_subject_class tsc ON ct.class_id = tsc.class_id
                                   AND ct.subject_id = tsc.subject_id
     JOIN subjects s ON s.s_id = ct.subject_id
     JOIN teachers t ON t.t_id = tsc.teacher_id
     WHERE ct.class_id = %s ORDER BY FIELD(ct.day, ...), ct.period] *)
Definition class_timetable_view (db : store) (cid : string) : list class_view_row :=
  order_by_lex (fun r => field_day (cv_day r)) cv_period
    (flat_map (fun ct =>
       flat_map (fun a =>
         flat_map (fun s =>
           map (fun t => mkClassView (s_name s) (ct_day ct) (ct_period ct) (t_name t))
             (filter (fun t => t_id t = tsc_teacher_id a) (teachers db)))
           (filter (fun s => s_id s = ct_subject_id ct) (subjects db)))
         (filter (fun a => assigned_to a ct) (teacher_subject_class db)))
       (filter (fun ct => ct_class_id ct = cid) (class_timetable db))).

(** The radio "View by". *)
Inductive view_option := ByTeacher | ByClass.

(** What the page shows: nothing (no option selected, or an empty name),
    or the table for the selected name (an empty table is the "No timetable
    data found" message). *)
Inductive view_result :=
  | ViewNothing
  | TeacherTable (name : string) (rows : list teacher_view_row)
  | ClassTable (name : string) (rows : list class_view_row).

(** [if selected: id = m[selected]]: a selectbox over the keys of a dict,
    skipped when it returns [None] or the empty string. *)
Definition select_key {V} (m : list (string * V)) (pick : nat) : py_result (option (string * V)) :=
  match selectbox (map fst m) pick with
  | None => Ok None
  | Some sel =>
      if decide (sel = "") then Ok None
      else v <- py_some KeyError (dict_get m sel) ;; Ok (Some (sel, v))
  end.

(** One run of the page. *)
Definition view_timetables (db : store) (option : view_option) (pick : nat) : py_result view_result :=
  match option with
  | ByTeacher =>
      sel <- select_key (teacher_map db) pick ;;
      match sel with
      | None => Ok ViewNothing
      | Some (name, tid) => Ok (TeacherTable name (teacher_timetable db tid))
      end
  | ByClass =>
      sel <- select_key (class_map db) pick ;;
      match sel with
      | None => Ok ViewNothing
      | Some (name, cid) => Ok (ClassTable name (class_timetable_view db cid))
      end
  end.

(** Two classes named "Ten A" (C1 and C2); C1 has Maths on Monday, period 1. *)
Definition views_demo : store :=
  mkStore [mkTeacher 1 "Asha"]
          [mkClass "C1" "Ten A"; mkClass "C2" "Ten A"] [mkSubject "S1" "Maths"]
          [mkTsc 1 1 "S1" "C1"] [mkCt 1 "C1" "S1" "Monday" 1] [] 2 2 2.

(** ** Lemmas *)

Lemma elem_of_teacher_timetable db tid r :
  r ∈ teacher_timetable db tid <->
  exists ct a c s, ct ∈ class_timetable db /\ a ∈ teacher_subject_class db /\
    c ∈ classes db /\ s ∈ subjects db /\ assigned_to a ct /\ tsc_teacher_id a = tid /\
    c_id c = ct_class_id ct /\ s_id s = ct_subject_id ct /\
    r = mkTeacherView (c_name c) (s_name s) (ct_day ct) (ct_period ct).
Proof. unfold teacher_timetable. rewrite elem_of_order_by_lex. query_simpl. naive_solver. Qed.

Lemma select_key_Some {V} (m : list (string * V)) pick sel v :
  select_key m pick = Ok (Some (sel, v)) -> dict_get m sel = Some v.
Proof.
  unfold select_key. destruct (selectbox _ pick) as [s|]; [|done].
  case_decide; [done|]. destruct (dict_get m s) eqn:E; simpl; [|done]. by intros [= -> ->].
Qed.

(** ** Theorems *)

(** C25 (equivalence): the periods [find_substitutions] reports missed by
    a teacher on a date are exactly the rows of that teacher's timetable
    view on the date's weekday (same class name, subject name and period),
    and the view is sorted by school day, then period. *)
Theorem missed_is_view_of_day db date tid :
  Sorted (key_lex_le (fun r => field_day (tv_day r)) tv_period) (teacher_timetable db tid) /\
  forall cn sn p,
    (exists m, m ∈ Engine.missed_classes db date tid /\
       Engine.m_c_name m = cn /\ Engine.m_s_name m = sn /\ Engine.m_period m = p) <->
    mkTeacherView cn sn (dayname date) p ∈ teacher_timetable db tid.
Proof.
  split; [apply order_by_lex_sorted|]. intros cn sn p.
  setoid_rewrite Engine.elem_of_missed_classes. rewrite elem_of_teacher_timetable.
  unfold Engine.missed_spec. split.
  - intros (m & (ct & a & c & s & Hct & Ha & Hc & Hs & Has & Hid & Hday & Hcid & Hsid & ->)
              & <- & <- & <-).
    exists ct, a, c, s. simpl. rewrite Hday. naive_solver.
  - intros (ct & a & c & s & Hct & Ha & Hc & Hs & Has & Hid & Hcid & Hsid & [= -> -> Hday ->]).
    eexists. split; [exists ct, a, c, s; naive_solver|]. done.
Qed.

(** C26 (safety): of two classes with the same name, the earlier one's
    timetable can never be viewed: [{c_name: c_id}] keeps the last id of a
    name, so the table shown for that name is another class's. *)
Theorem class_namesake_unviewable db pick i j c1 c2 name rows :
  NoDup (map c_id (classes db)) ->
  classes db !! i = Some c1 -> classes db !! j = Some c2 -> i < j -> c_name c2 = c_name c1 ->
  view_timetables db ByClass pick = Ok (ClassTable name rows) ->
  exists cid, cid <> c_id c1 /\ rows = class_timetable_view db cid.
Proof.
  intros Hnd Hi Hj Hij Hname. simpl.
  destruct (select_key (class_map db) pick) as [[[sel cid]|]|] eqn:E; simpl; try done.
  intros [= <- <-]. exists cid. split; [|done].
  apply select_key_Some, dict_of_last in E as (k & Hk & Hafter).
  apply lookup_map_Some in Hk as (c & Hc & [= Hsel Hcid]). intros ->.
  assert (c = c1) as ->.
  { eapply NoDup_map_inj_in; [exact Hnd| | |symmetry; exact Hcid]; eapply list_elem_of_lookup_2; eauto. }
  assert (k = i) as ->.
  { eapply NoDup_lookup; [apply (NoDup_fmap_1 c_id); exact Hnd|exact Hc|exact Hi]. }
  apply (Hafter j (c_name c2, c_id c2) Hij); [apply lookup_map_Some; eauto|simpl; congruence].
Qed.

(** ** Witnesses *)

Lemma class_namesake_unviewable_witness :
  view_timetables views_demo ByClass 0 = Ok (ClassTable "Ten A" []) /\
  class_timetable_view views_demo "C1" = [mkClassView "Maths" "Monday" 1 "Asha"] /\
  exists cid, cid <> "C1" /\ @nil class_view_row = class_timetable_view views_demo cid.
Proof.
  split; [reflexivity|]. split; [reflexivity|].
  apply (class_namesake_unviewable views_demo 0 0 1 (mkClass "C1" "Ten A") (mkClass "C2" "Ten A") "Ten A" []);
    [apply (bool_decide_unpack _); vm_compute; exact I|reflexivity|reflexivity|lia|reflexivity
    |reflexivity].
Defined.

End Views.
