(* ===== verification/App.v ===== *)
(** * App: the menu of src/app.py and the runs of the whole application

    [app.py] reads the sidebar selectbox "Choose Action" and, through an
    if/elif chain on the chosen text, calls one handler of functions.py.
    A run of the script is one [app_run]: the menu pick and the values of
    the widgets of the page shown, on the state the runs share: the store
    and [st.session_state.teacher_added].  Runs follow each other (a button
    click or a [st.rerun()] starts the next), which is the step relation
    [app_step]; [reachable] is its reflexive-transitive closure from the
    empty store.  The invariant [store_wf] gathers the well-formedness of
    every table, and holds in every reachable state. *)

From stdpp Require Import relations.
From S2P Require Import Prelude Schema Substitution Timetable Attendance Teachers Catalog Views.

Module App.

Import Teachers Catalog Views.

(** The state the runs share. *)
Record app_state := mkApp { app_db : store; teacher_added : bool }.

Definition initial_state : app_state := mkApp empty_store false.

(** [st.sidebar.selectbox("Choose Action", [...])] *)
Definition menu_options : list string :=
  ["Add/Edit Teachers"; "Add/Remove Classes"; "Add/Edit Class Timetable";
   "Mark Teacher Attendance"; "View Timetables"; "Find Substitutions";
   "Add/Remove Subjects"].

(** The values of the widgets of a run, for whichever page is shown; a
    run reads only the fields of its page.  [today] is Python's
    [date.today()], [curdate] MySQL's [CURDATE()]. *)
Record widgets := mkWidgets {
  w_teacher_pick : nat;
  w_teacher_ev : teacher_event;
  w_class_ev : catalog_event;
  w_tt_class_pick : nat;
  w_tt_day_pick : nat;
  w_tt_ev : Timetable.tt_event;
  w_today : nat;
  w_att_submitted : bool;
  w_att_pick : nat -> status;
  w_view_option : view_option;
  w_view_pick : nat;
  w_curdate : nat;
  w_subst_pick : nat;
  w_subject_ev : catalog_event }.

(** What the page of the run shows. *)
Inductive page_output :=
  | PO_None
  | PO_Teachers (fb : teacher_feedback)
  | PO_Classes (fb : catalog_feedback)
  | PO_Timetable (entries : list Timetable.tt_entry)
  | PO_Attendance (shown : list (teacher * status))
  | PO_View (v : view_result)
  | PO_Substitutions (r : Engine.subst_result)
  | PO_Subjects (fb : catalog_feedback).

(** One run of app.py: lines 9-46. *)
Definition app_run (s : app_state) (menu_pick : nat) (w : widgets) :
    py_result (app_state * page_output) :=
  let db := app_db s in
  match selectbox menu_options menu_pick with
  | None => Ok (s, PO_None)
  | Some menu =>
      if decide (menu = "Add/Edit Teachers") then
        r <- manage_teachers db (teacher_added s) (w_teacher_pick w) (w_teacher_ev w) ;;
        let '(db', flag', fb) := r in Ok (mkApp db' flag', PO_Teachers fb)
      else if decide (menu = "Add/Remove Classes") then
        let '(db', fb) := manage_classes db (w_class_ev w) in
        Ok (mkApp db' (teacher_added s), PO_Classes fb)
      else if decide (menu = "Add/Edit Class Timetable") then
        r <- Timetable.manage_class_timetable db (w_tt_class_pick w) (w_tt_day_pick w) (w_tt_ev w) ;;
        let '(db', entries) := r in Ok (mkApp db' (teacher_added s), PO_Timetable entries)
      else if decide (menu = "Mark Teacher Attendance") then
        let '(db', shown) :=
          Attendance.mark_teacher_attendance db (w_today w) (w_att_submitted w) (w_att_pick w) in
        Ok (mkApp db' (teacher_added s), PO_Attendance shown)
      else if decide (menu = "View Timetables") then
        v <- view_timetables db (w_view_option w) (w_view_pick w) ;; Ok (s, PO_View v)
      else if decide (menu = "Find Substitutions") then
        r <- Engine.find_substitutions db (w_curdate w) (w_subst_pick w) ;;
        Ok (s, PO_Substitutions r)
      else if decide (menu = "Add/Remove Subjects") then
        let '(db', fb) := manage_subjects db (w_subject_ev w) in
        Ok (mkApp db' (teacher_added s), PO_Subjects fb)
      else Ok (s, PO_None)
  end.

(** Runs in sequence.  A run that raises has written nothing: every
    exception a handler raises comes before its first write. *)
Inductive app_step : app_state -> app_state -> Prop :=
  | step_ok s m w s' out : app_run s m w = Ok (s', out) -> app_step s s'
  | step_raise s m w e : app_run s m w = Raise e -> app_step s s.

Definition reachable (s : app_state) : Prop := rtc app_step initial_state s.

(** Every table well formed. *)
Definition store_wf (db : store) : Prop :=
  teachers_wf db /\ Timetable.timetable_wf db /\ Attendance.attendance_unique db /\
  catalog_wf (R := class_row) db /\ catalog_wf (R := subject_row) db.

(** The widgets of the Teachers page with "-- Add New --" selected and
    [ev] done; the other pages' widgets at their first option. *)
Definition teacher_page_widgets (ev : teacher_event) : widgets :=
  mkWidgets 0 ev CE_None 0 0 Timetable.TT_Show 0 false (fun _ => Present) ByTeacher 0 0 0 CE_None.

(** The columns each invariant reads. *)
Definition teacher_part (db : store) := (teachers db, next_t_id db, teacher_subject_class db, next_tsc_id db).
Definition timetable_part (db : store) := (class_timetable db, next_ct_id db).

(** ** Each invariant reads only its tables *)

Lemma teachers_wf_part db db' : teacher_part db' = teacher_part db -> teachers_wf db -> teachers_wf db'.
Proof. destruct db, db'. unfold teacher_part. simpl. by intros [= -> -> -> ->]. Qed.

Lemma timetable_wf_part db db' :
  timetable_part db' = timetable_part db -> Timetable.timetable_wf db -> Timetable.timetable_wf db'.
Proof. destruct db, db'. unfold timetable_part. simpl. by intros [= -> ->]. Qed.

Lemma attendance_unique_part db db' :
  teacher_attendence db' = teacher_attendence db ->
  Attendance.attendance_unique db -> Attendance.attendance_unique db'.
Proof. unfold Attendance.attendance_unique. by intros ->. Qed.

Lemma classes_wf_part db db' :
  classes db' = classes db -> catalog_wf (R := class_row) db -> catalog_wf (R := class_row) db'.
Proof. unfold catalog_wf. simpl. by intros ->. Qed.

Lemma subjects_wf_part db db' :
  subjects db' = subjects db -> catalog_wf (R := subject_row) db -> catalog_wf (R := subject_row) db'.
Proof. unfold catalog_wf. simpl. by intros ->. Qed.

(** ** Each handler writes only its tables *)

Lemma manage_teachers_frame db flag pick ev db' flag' fb :
  manage_teachers db flag pick ev = Ok (db', flag', fb) ->
  timetable_part db' = timetable_part db /\ teacher_attendence db' = teacher_attendence db /\
  classes db' = classes db /\ subjects db' = subjects db.
Proof.
  unfold manage_teachers, insert_assignment, py_bind, py_some. intros H.
  repeat (case_match; simplify_eq/=); done.
Qed.

Lemma manage_classes_frame db ev :
  teacher_part (manage_classes db ev).1 = teacher_part db /\
  timetable_part (manage_classes db ev).1 = timetable_part db /\
  teacher_attendence (manage_classes db ev).1 = teacher_attendence db /\
  subjects (manage_classes db ev).1 = subjects db.
Proof.
  unfold manage_classes, manage_catalog, catalog_insert.
  destruct ev; simpl; [done|destruct (classes db !! i); done|]. by repeat case_decide.
Qed.

Lemma manage_subjects_frame db ev :
  teacher_part (manage_subjects db ev).1 = teacher_part db /\
  timetable_part (manage_subjects db ev).1 = timetable_part db /\
  teacher_attendence (manage_subjects db ev).1 = teacher_attendence db /\
  classes (manage_subjects db ev).1 = classes db.
Proof.
  unfold manage_subjects, manage_catalog, catalog_insert.
  destruct ev; simpl; [done|destruct (subjects db !! i); done|]. by repeat case_decide.
Qed.

Lemma manage_class_timetable_frame db c d ev db' entries :
  Timetable.manage_class_timetable db c d ev = Ok (db', entries) ->
  teacher_part db' = teacher_part db /\ teacher_attendence db' = teacher_attendence db /\
  classes db' = classes db /\ subjects db' = subjects db.
Proof.
  unfold Timetable.manage_class_timetable.
  destruct (selectbox school_days d) as [day|]; [|by intros [= <- _]].
  destruct (selectbox _ c) as [lbl|]; cbn [py_some py_bind]; [|done].
  destruct (py_int _) as [z|]; cbn [py_some py_bind]; [|done].
  destruct ev as [|k|pp sp]; [by intros [= <- _]| |].
  - destruct (_ !! k); intros [= <- _]; done.
  - destruct (selectbox period_options pp); [|by intros [= <- _]].
    destruct (selectbox _ sp); cbn [py_some py_bind]; [|done].
    intros [= <- _]. unfold Timetable.save_slot. by destruct (Timetable.existing_slot _ _ _ _).
Qed.

Lemma save_attendance_frame db today recs sels :
  let db' := Attendance.save_attendance db today recs sels in
  teacher_part db' = teacher_part db /\ timetable_part db' = timetable_part db /\
  classes db' = classes db /\ subjects db' = subjects db.
Proof.
  unfold Attendance.save_attendance. revert db.
  induction sels as [|sel sels IH]; intros db; simpl; [done|].
  destruct (IH (Attendance.save_step today recs db sel)) as (H1 & H2 & H3 & H4).
  rewrite H1, H2, H3, H4. unfold Attendance.save_step. by destruct (dict_mem recs sel.1).
Qed.

Lemma mark_teacher_attendance_frame db today submitted pick db' shown :
  Attendance.mark_teacher_attendance db today submitted pick = (db', shown) ->
  teacher_part db' = teacher_part db /\ timetable_part db' = timetable_part db /\
  classes db' = classes db /\ subjects db' = subjects db.
Proof.
  unfold Attendance.mark_teacher_attendance. destruct submitted; intros [= <- _]; [|done].
  apply save_attendance_frame.
Qed.

(** ** One run keeps every table well formed *)

Lemma app_run_wf s m w s' out :
  store_wf (app_db s) -> app_run s m w = Ok (s', out) -> store_wf (app_db s').
Proof.
  intros (Ht & Htt & Ha & Hc & Hs). unfold app_run.
  destruct (selectbox menu_options m) as [menu|]; [|by intros [= <- _]].
  case_decide; [|case_decide; [|case_decide; [|case_decide; [|case_decide; [|case_decide;
    [|case_decide]]]]]].
  - destruct (manage_teachers _ _ _ _) as [[[db' f'] fb]|] eqn:E; simpl; [intros [= <- _]|done].
    destruct (manage_teachers_frame _ _ _ _ _ _ _ E) as (F1 & F2 & F3 & F4).
    split; [by eapply manage_teachers_preserves|].
    split; [by eapply timetable_wf_part|]. split; [by eapply attendance_unique_part|].
    split; [by eapply classes_wf_part|by eapply subjects_wf_part].
  - pose proof (manage_catalog_preserves (R := class_row) (app_db s) (w_class_ev w) Hc) as Hp.
    destruct (manage_classes_frame (app_db s) (w_class_ev w)) as (F1 & F2 & F3 & F4).
    unfold manage_classes in *. destruct (manage_catalog _ _) as [db' fb] eqn:E.
    intros [= <- _]. simpl in *.
    split; [by eapply teachers_wf_part|]. split; [by eapply timetable_wf_part|].
    split; [by eapply attendance_unique_part|]. split; [done|by eapply subjects_wf_part].
  - destruct (Timetable.manage_class_timetable _ _ _ _) as [[db' es]|] eqn:E; simpl;
      [intros [= <- _]|done].
    destruct (manage_class_timetable_frame _ _ _ _ _ _ E) as (F1 & F2 & F3 & F4).
    split; [by eapply teachers_wf_part|]. split; [by eapply Timetable.manage_class_timetable_preserves|].
    split; [by eapply attendance_unique_part|].
    split; [by eapply classes_wf_part|by eapply subjects_wf_part].
  - destruct (Attendance.mark_teacher_attendance _ _ _ _) as [db' shown] eqn:E. intros [= <- _].
    destruct (mark_teacher_attendance_frame _ _ _ _ _ _ E) as (F1 & F2 & F3 & F4). simpl.
    split; [by eapply teachers_wf_part|]. split; [by eapply timetable_wf_part|].
    split; [by eapply Attendance.mark_attendance_preserves|].
    split; [by eapply classes_wf_part|by eapply subjects_wf_part].
  - destruct (view_timetables _ _ _); simpl; [intros [= <- _]|done]. exact (conj Ht (conj Htt (conj Ha (conj Hc Hs)))).
  - destruct (Engine.find_substitutions _ _ _); simpl; [intros [= <- _]|done]. exact (conj Ht (conj Htt (conj Ha (conj Hc Hs)))).
  - pose proof (manage_catalog_preserves (R := subject_row) (app_db s) (w_subject_ev w) Hs) as Hp.
    destruct (manage_subjects_frame (app_db s) (w_subject_ev w)) as (F1 & F2 & F3 & F4).
    unfold manage_subjects in *. destruct (manage_catalog _ _) as [db' fb] eqn:E.
    intros [= <- _]. simpl in *.
    split; [by eapply teachers_wf_part|]. split; [by eapply timetable_wf_part|].
    split; [by eapply attendance_unique_part|]. split; [by eapply classes_wf_part|done].
  - by intros [= <- _].
Qed.

Lemma store_wf_empty : store_wf empty_store.
Proof.
  repeat split; simpl; try apply NoDup_nil_2; set_solver.
Qed.

(** ** Theorems *)

(** C27 (invariant): in every state the application can reach from the
    empty store, by any sequence of runs of any pages with any widget
    values, raising or not, every table is well formed: the teacher,
    assignment, timetable and attendance invariants and unique class and
    subject ids. *)
Theorem reachable_store_wf s : reachable s -> store_wf (app_db s).
Proof.
  unfold reachable. intros Hr. generalize store_wf_empty. change empty_store with (app_db initial_state).
  induction Hr as [|s1 s2 s3 Hstep _ IH]; intros H1; [done|]. apply IH.
  destruct Hstep as [s1 m w s2 out Hrun|s1 m w e _]; [by eapply app_run_wf|done].
Qed.

(** C28 (functional; ordering of runs): "Add Teacher" with a name inserts
    the teacher and sets [st.session_state.teacher_added] instead of showing
    a message; the next run of the add-new page shows "Teacher added
    successfully" and clears the flag, and the run after it shows nothing. *)
Theorem teacher_added_shown_next_run s name w1 w2 :
  name <> "" ->
  w_teacher_pick w1 = 0 -> w_teacher_ev w1 = TE_AddTeacher name ->
  w_teacher_pick w2 = 0 -> w_teacher_ev w2 = TE_None ->
  app_run s 0 w1 = Ok (mkApp (insert_teacher (app_db s) name) true, PO_Teachers FB_None) /\
  app_run (mkApp (insert_teacher (app_db s) name) true) 0 w2 =
    Ok (mkApp (insert_teacher (app_db s) name) false, PO_Teachers FB_TeacherAdded) /\
  app_run (mkApp (insert_teacher (app_db s) name) false) 0 w2 =
    Ok (mkApp (insert_teacher (app_db s) name) false, PO_Teachers FB_None).
Proof.
  intros Hname Hp1 He1 Hp2 He2. unfold app_run, manage_teachers, select_teacher. simpl.
  rewrite Hp1, He1, Hp2, He2. simpl. by rewrite decide_False.
Qed.

(** ** Witnesses *)

Lemma reachable_store_wf_witness :
  reachable (mkApp (insert_teacher empty_store "Asha") true) /\
  store_wf (insert_teacher empty_store "Asha").
Proof.
  assert (reachable (mkApp (insert_teacher empty_store "Asha") true)) as Hr.
  { apply rtc_once. apply (step_ok _ 0 (teacher_page_widgets (TE_AddTeacher "Asha")) _
      (PO_Teachers FB_None)). reflexivity. }
  split; [exact Hr|]. apply (reachable_store_wf _ Hr).
Defined.

Lemma teacher_added_shown_next_run_witness :
  app_run initial_state 0 (teacher_page_widgets (TE_AddTeacher "Asha")) =
    Ok (mkApp (insert_teacher empty_store "Asha") true, PO_Teachers FB_None) /\
  app_run (mkApp (insert_teacher empty_store "Asha") true) 0 (teacher_page_widgets TE_None) =
    Ok (mkApp (insert_teacher empty_store "Asha") false, PO_Teachers FB_TeacherAdded) /\
  app_run (mkApp (insert_teacher empty_store "Asha") false) 0 (teacher_page_widgets TE_None) =
    Ok (mkApp (insert_teacher empty_store "Asha") false, PO_Teachers FB_None).
Proof.
  apply (teacher_added_shown_next_run initial_state "Asha"); reflexivity || discriminate.
Defined.

End App.
